(** * absscpi.driver: the Python binding of the ABS SCPI driver

    A shallow embedding of [src/absscpi/driver.py].  The module wraps a
    shared library through [ctypes]: every method of [ScpiClient] marshals
    its arguments, makes one foreign call, checks the returned code and
    unmarshals the out-parameters.

    - Python [int] is [Z]; [str] is a list of code points; [bytes] is a
      list of [Byte.byte]; [float] is a binary64 [float].
    - [ctypes] integers are [Z] with their wrap-around written out.
    - The loaded library is a record of foreign functions over an abstract
      world [W] (the library's memory, the sockets, the instruments).  It is
      not part of the repository and stays a parameter; a foreign function
      may answer anything, but writes only inside the buffers it is given.
    - Methods run in a state-and-exception monad over the client's handle,
      the world and a log of the foreign calls made so far.
    - Construction ([__init__]: finding and loading the library) is left
      out: a client starts with the library loaded and a NULL handle. *)

From Stdlib Require Import ZArith List String Ascii Strings.Byte Bool Lia.
From Stdlib Require Import DecimalString.
From Stdlib Require Import Floats.PrimFloat Floats.SpecFloat Floats.FloatOps.
Import ListNotations.
Open Scope Z_scope.

(** ** Python values *)

(** A Python [str]: its code points, each in [0, 0x10FFFF].  Lone surrogates
    are allowed in a [str], and are what [encode] rejects. *)
Definition str := list Z.

(** A Python [bytes] object. *)
Definition bytes := list byte.

Definition ord (c : ascii) : Z := Z.of_N (N_of_ascii c).

(** A string literal of the source, as a [str]. *)
Definition literal (s : string) : str := map ord (list_ascii_of_string s).

(** [f"{n}"] for an [int]. *)
Definition format_int (n : Z) : str := literal (NilZero.string_of_int (Z.to_int n)).

(** The exceptions that can leave this module. *)
Inductive exception :=
| ScpiClientError (msg : str)
| ValueError (msg : str)
| OSError (msg : str)
| UnicodeDecodeError
| UnicodeEncodeError
| AttributeError
| ArgumentError
| OtherException (class_name : string).

Inductive result (A : Type) :=
| Ok (a : A)
| Raise (e : exception).
Arguments Ok {A} a.
Arguments Raise {A} e.

Definition is_ok {A} (r : result A) : bool :=
  match r with Ok _ => true | Raise _ => false end.

(** ** UTF-8: [str.encode()] and [bytes.decode()] with their defaults
    (encoding utf-8, errors strict) *)

Module Utf8.

Definition val (b : byte) : Z := Z.of_N (Byte.to_N b).

Definition byte_of (n : Z) : byte :=
  match Byte.of_N (Z.to_N n) with Some b => b | None => x00 end.

(** A continuation byte, 10xxxxxx. *)
Definition cont (b : byte) : bool := (0x80 <=? val b) && (val b <? 0xC0).

Definition encode_point (c : Z) : option bytes :=
  if c <? 0 then None
  else if c <? 0x80 then Some [byte_of c]
  else if c <? 0x800 then
    Some [byte_of (0xC0 + c / 64); byte_of (0x80 + c mod 64)]
  else if c <? 0x10000 then
    if (0xD800 <=? c) && (c <? 0xE000) then None
    else Some [byte_of (0xE0 + c / 4096);
               byte_of (0x80 + (c / 64) mod 64);
               byte_of (0x80 + c mod 64)]
  else if c <? 0x110000 then
    Some [byte_of (0xF0 + c / 262144);
          byte_of (0x80 + (c / 4096) mod 64);
          byte_of (0x80 + (c / 64) mod 64);
          byte_of (0x80 + c mod 64)]
  else None.

Fixpoint encode (s : str) : option bytes :=
  match s with
  | [] => Some []
  | c :: s' =>
      match encode_point c, encode s' with
      | Some b, Some bs => Some (b ++ bs)
      | _, _ => None
      end
  end.

(** The second byte of a three-byte sequence excludes over-long forms (lead
    E0) and surrogates (lead ED). *)
Definition second_of_3 (n0 n1 : Z) : bool :=
  (if n0 =? 0xE0 then 0xA0 <=? n1 else true) &&
  (if n0 =? 0xED then n1 <? 0xA0 else true).

(** The second byte of a four-byte sequence excludes over-long forms (lead
    F0) and code points above 0x10FFFF (lead F4). *)
Definition second_of_4 (n0 n1 : Z) : bool :=
  (if n0 =? 0xF0 then 0x90 <=? n1 else true) &&
  (if n0 =? 0xF4 then n1 <? 0x90 else true).

Fixpoint decode (bs : bytes) : option str :=
  match bs with
  | [] => Some []
  | b0 :: r0 =>
      let n0 := val b0 in
      if n0 <? 0x80 then option_map (cons n0) (decode r0)
      else if n0 <? 0xC2 then None
      else if n0 <? 0xE0 then
        match r0 with
        | b1 :: r1 =>
            if cont b1
            then option_map (cons ((n0 - 0xC0) * 64 + (val b1 - 0x80)))
                            (decode r1)
            else None
        | _ => None
        end
      else if n0 <? 0xF0 then
        match r0 with
        | b1 :: b2 :: r2 =>
            if cont b1 && cont b2 && second_of_3 n0 (val b1)
            then option_map
                   (cons ((n0 - 0xE0) * 4096 + (val b1 - 0x80) * 64
                          + (val b2 - 0x80)))
                   (decode r2)
            else None
        | _ => None
        end
      else if n0 <? 0xF5 then
        match r0 with
        | b1 :: b2 :: b3 :: r3 =>
            if cont b1 && cont b2 && cont b3 && second_of_4 n0 (val b1)
            then option_map
                   (cons ((n0 - 0xF0) * 262144 + (val b1 - 0x80) * 4096
                          + (val b2 - 0x80) * 64 + (val b3 - 0x80)))
                   (decode r3)
            else None
        | _ => None
        end
      else None
  end.

End Utf8.

(** [s.encode()] *)
Definition str_encode (s : str) : result bytes :=
  match Utf8.encode s with
  | Some b => Ok b
  | None => Raise UnicodeEncodeError
  end.

(** [b.decode()] *)
Definition bytes_decode (b : bytes) : result str :=
  match Utf8.decode b with
  | Some s => Ok s
  | None => Raise UnicodeDecodeError
  end.

(** [len(s.encode())]: the width of a text in bytes, when it has one. *)
Definition byte_length (s : str) : option nat :=
  option_map (@List.length byte) (Utf8.encode s).

(** ** The parts of [ctypes] the module uses *)

Module Ctypes.

(** [c_uint(v).value]: no overflow checking is done, the value wraps. *)
Definition c_uint (v : Z) : Z := v mod 2 ^ 32.

(** [c_uint8(v).value] *)
Definition c_uint8 (v : Z) : Z := v mod 2 ^ 8.

(** [c_int(v).value]; also the default [restype] of a foreign function. *)
Definition c_int (v : Z) : Z := (v + 2 ^ 31) mod 2 ^ 32 - 2 ^ 31.

(** [c_int16(v).value] *)
Definition c_int16 (v : Z) : Z := (v + 2 ^ 15) mod 2 ^ 16 - 2 ^ 15.

(** [c_float(x).value]: the binary64 [x] rounded to binary32 (to nearest,
    ties to even; overflow gives an infinity) and widened again. *)
Definition c_float (x : float) : float :=
  match Prim2SF x with
  | S754_finite s m e =>
      SF2Prim (binary_normalize 24 128 (if s then Zneg m else Zpos m) e s)
  | _ => x
  end.

(** A Python [int] passed to a foreign function that declares no
    [argtypes]: it must fit an [unsigned long] or a [long] of the platform
    ([long_bits] wide), else the call raises [ctypes.ArgumentError]; the
    callee then reads it as a C [int]. *)
Definition int_argument (long_bits v : Z) : option Z :=
  if (- 2 ^ (long_bits - 1) <=? v) && (v <? 2 ^ long_bits)
  then Some (c_int v)
  else None.

(** The bytes of a character buffer up to its first NUL, or all of them when
    it holds none: [.value] of a [c_char] array, the read of a [c_char]
    array field, and the conversion of a [c_char_p] result. *)
Fixpoint until_nul (buf : bytes) : bytes :=
  match buf with
  | [] => []
  | b :: r => if Byte.eqb b x00 then [] else b :: until_nul r
  end.

(** A zero-initialised buffer: [create_string_buffer(n)], a fresh field. *)
Definition zeros (n : nat) : bytes := repeat x00 n.

(** What a buffer of [n] elements holds once [data] was written to its
    start: a foreign function fills a buffer, it cannot resize it.  (Writes
    past the end of a buffer are outside this model.) *)
Definition fit {A} (pad : A) (n : nat) (data : list A) : list A :=
  firstn n (data ++ repeat pad n).

(** Assignment of a [bytes] value to a [c_char * width] field: the value is
    cut at its first NUL, refused when longer than the field, and copied
    with a terminator when there is room for one. *)
Definition set_char_array (width : nat) (old value : bytes) : result bytes :=
  let data := until_nul value in
  let size := List.length data in
  if (size <? width)%nat then
    Ok (data ++ x00 :: skipn (S size) old)
  else if (width <? size)%nat then
    Raise (ValueError (literal "bytes too long (" ++ format_int (Z.of_nat size)
                       ++ literal ", maximum length "
                       ++ format_int (Z.of_nat width) ++ literal ")"))
  else Ok (data ++ skipn size old).

(** An argument of a foreign call, as the log records it. *)
Inductive argument :=
| Pointer (p : Z)
| Int (v : Z)
| UInt (v : Z)
| Float (v : float)
| Chars (b : option bytes)
| ByRef.

Record foreign_call := {
  function : string;
  arguments : list argument
}.

End Ctypes.
Import Ctypes.

(** ** The structures *)

Module AbsDeviceInfo.

Record t := {
  part_number : bytes;  (* c_char * 128 *)
  serial : bytes;       (* c_char * 128 *)
  version : bytes       (* c_char * 128 *)
}.

Definition new : t :=
  {| part_number := zeros 128; serial := zeros 128; version := zeros 128 |}.

Definition store (raw : t) : t :=
  {| part_number := fit x00 128 (part_number raw);
     serial := fit x00 128 (serial raw);
     version := fit x00 128 (version raw) |}.

Definition get_part_number (self : t) : result str :=
  bytes_decode (until_nul (part_number self)).

Definition get_serial (self : t) : result str :=
  bytes_decode (until_nul (serial self)).

Definition get_version (self : t) : result str :=
  bytes_decode (until_nul (version self)).

End AbsDeviceInfo.

Module AbsEthernetConfig.

Record t := {
  ip : bytes;      (* c_char * 32 *)
  netmask : bytes  (* c_char * 32 *)
}.

Definition new : t := {| ip := zeros 32; netmask := zeros 32 |}.

Definition store (raw : t) : t :=
  {| ip := fit x00 32 (ip raw); netmask := fit x00 32 (netmask raw) |}.

Definition get_ip_address (self : t) : result str :=
  bytes_decode (until_nul (ip self)).

Definition get_netmask (self : t) : result str :=
  bytes_decode (until_nul (netmask self)).

End AbsEthernetConfig.

Module AbsEthernetDiscoveryResult.

Record t := {
  ip : bytes;     (* c_char * 32 *)
  serial : bytes  (* c_char * 128 *)
}.

Definition new : t := {| ip := zeros 32; serial := zeros 128 |}.

Definition store (raw : t) : t :=
  {| ip := fit x00 32 (ip raw); serial := fit x00 128 (serial raw) |}.

Definition get_ip_address (self : t) : result str :=
  bytes_decode (until_nul (ip self)).

Definition get_serial (self : t) : result str :=
  bytes_decode (until_nul (serial self)).

End AbsEthernetDiscoveryResult.

(** ** The shared library

    The foreign functions the module calls, by the names it looks them up
    under.  Each takes its by-value arguments and the current contents of
    the objects passed [byref], and returns its C result, the new contents
    of those objects, and the world after the call.  The library itself is
    not part of this repository: it stays a parameter. *)

Record Dll (W : Type) := {
  AbsScpiClient_ErrorMessage : Z -> W -> option bytes * W;
  AbsScpiClient_Init : Z -> W -> (Z * Z) * W;
  AbsScpiClient_Destroy : Z -> W -> (Z * Z) * W;
  AbsScpiClient_OpenUdp : Z -> bytes -> option bytes -> W -> Z * W;
  AbsScpiClient_OpenSerial : Z -> bytes -> Z -> W -> Z * W;
  AbsScpiClient_GetDeviceInfo :
    Z -> AbsDeviceInfo.t -> W -> (Z * AbsDeviceInfo.t) * W;
  AbsScpiClient_GetDeviceId : Z -> Z -> W -> (Z * Z) * W;
  AbsScpiClient_GetIPAddress :
    Z -> AbsEthernetConfig.t -> W -> (Z * AbsEthernetConfig.t) * W;
  AbsScpiClient_SetIPAddress :
    Z -> AbsEthernetConfig.t -> W -> (Z * AbsEthernetConfig.t) * W;
  AbsScpiClient_GetCalibrationDate :
    Z -> bytes -> Z -> W -> (Z * bytes) * W;
  AbsScpiClient_GetErrorCount : Z -> Z -> W -> (Z * Z) * W;
  AbsScpiClient_GetNextError :
    Z -> Z -> bytes -> Z -> W -> (Z * (Z * bytes)) * W;
  AbsScpiClient_ClearErrors : Z -> W -> Z * W;
  AbsScpiClient_SetCellVoltage : Z -> Z -> float -> W -> Z * W;
  AbsScpiClient_SetAllCellVoltages : Z -> list float -> Z -> W -> Z * W;
  AbsScpiClient_GetCellVoltageTarget :
    Z -> Z -> float -> W -> (Z * float) * W;
  AbsScpiClient_GetAllCellVoltageTargets :
    Z -> list float -> Z -> W -> (Z * list float) * W;
  AbsScpiClient_MulticastDiscovery :
    bytes -> list AbsEthernetDiscoveryResult.t -> Z -> W ->
    (Z * (list AbsEthernetDiscoveryResult.t * Z)) * W
}.
Arguments AbsScpiClient_ErrorMessage {W}.
Arguments AbsScpiClient_Init {W}.
Arguments AbsScpiClient_Destroy {W}.
Arguments AbsScpiClient_OpenUdp {W}.
Arguments AbsScpiClient_OpenSerial {W}.
Arguments AbsScpiClient_GetDeviceInfo {W}.
Arguments AbsScpiClient_GetDeviceId {W}.
Arguments AbsScpiClient_GetIPAddress {W}.
Arguments AbsScpiClient_SetIPAddress {W}.
Arguments AbsScpiClient_GetCalibrationDate {W}.
Arguments AbsScpiClient_GetErrorCount {W}.
Arguments AbsScpiClient_GetNextError {W}.
Arguments AbsScpiClient_ClearErrors {W}.
Arguments AbsScpiClient_SetCellVoltage {W}.
Arguments AbsScpiClient_SetAllCellVoltages {W}.
Arguments AbsScpiClient_GetCellVoltageTarget {W}.
Arguments AbsScpiClient_GetAllCellVoltageTargets {W}.
Arguments AbsScpiClient_MulticastDiscovery {W}.

(** ** Methods as computations

    A method runs against the client's handle ([self.__handle], a
    [c_void_p]: 0 is NULL), the world behind the library, and the log of the
    foreign calls made so far, newest first.  A raised exception keeps the
    effects that came before it. *)

Record state (W : Type) := {
  handle : Z;
  world : W;
  trace : list foreign_call
}.
Arguments handle {W}.
Arguments world {W}.
Arguments trace {W}.

Definition M (W A : Type) : Type := state W -> result A * state W.

Definition ret {W A} (a : A) : M W A := fun st => (Ok a, st).

Definition raise {W A} (e : exception) : M W A := fun st => (Raise e, st).

Definition lift {W A} (r : result A) : M W A := fun st => (r, st).

Definition bind {W A B} (m : M W A) (k : A -> M W B) : M W B :=
  fun st =>
    match m st with
    | (Ok a, st') => k a st'
    | (Raise e, st') => (Raise e, st')
    end.

Notation "x <- m ;; k" := (bind m (fun x => k))
  (at level 61, m at next level, right associativity).
Notation "' p <- m ;; k" := (bind m (fun x => match x with p => k end))
  (at level 61, p pattern, m at next level, right associativity).
Notation "m ;; k" := (bind m (fun _ => k))
  (at level 61, right associativity).

Definition get_handle {W} : M W Z := fun st => (Ok (handle st), st).

Definition set_handle {W} (h : Z) : M W unit :=
  fun st => (Ok tt, {| handle := h; world := world st; trace := trace st |}).

(** One call into the library: the world moves on and the call is logged. *)
Definition foreign {W A} (name : string) (args : list argument)
    (f : W -> A * W) : M W A :=
  fun st =>
    let (a, w) := f (world st) in
    (Ok a, {| handle := handle st; world := w;
              trace := {| function := name; arguments := args |} :: trace st |}).

(** [self.__handle = c_void_p()] *)
Definition new_client {W} (w : W) : state W :=
  {| handle := 0; world := w; trace := [] |}.

Definition class_of (e : exception) : string :=
  match e with
  | ScpiClientError _ => "ScpiClientError"
  | ValueError _ => "ValueError"
  | OSError _ => "OSError"
  | UnicodeDecodeError => "UnicodeDecodeError"
  | UnicodeEncodeError => "UnicodeEncodeError"
  | AttributeError => "AttributeError"
  | ArgumentError => "ArgumentError"
  | OtherException c => c
  end.

Section ScpiClient.

Context {W : Type}.
(** The width of a C [long] where the module runs. *)
Variable long_bits : Z.
(** [self.__dll] *)
Variable dll : Dll W.

Definition err_msg (err : Z) : M W str :=
  match int_argument long_bits err with
  | None => raise ArgumentError
  | Some code =>
      r <- foreign "AbsScpiClient_ErrorMessage" [Int code]
             (AbsScpiClient_ErrorMessage dll code) ;;
      match r with
      | None => raise AttributeError
      | Some mem => lift (bytes_decode (until_nul mem))
      end
  end.

Definition __check_err (err : Z) : M W unit :=
  if err <? 0
  then msg <- err_msg err ;; raise (ScpiClientError msg)
  else ret tt.

Definition init : M W unit :=
  h <- get_handle ;;
  ' (res, h') <- foreign "AbsScpiClient_Init" [ByRef]
                   (AbsScpiClient_Init dll h) ;;
  set_handle h' ;;
  __check_err (c_int res).

Definition cleanup : M W unit :=
  h <- get_handle ;;
  ' (_, h') <- foreign "AbsScpiClient_Destroy" [ByRef]
                 (AbsScpiClient_Destroy dll h) ;;
  set_handle h'.

Definition __enter__ : M W unit := init.

(** Returns [None], which is false: the exception, if any, goes on. *)
Definition __exit__ (exc_type : option string) (exc_value : option exception)
    (traceback : option unit) : M W bool :=
  cleanup ;; ret false.

(** [with client: body], for a client already constructed. *)
Definition with_block (body : M W unit) : M W unit :=
  fun st =>
    match __enter__ st with
    | (Raise e, st1) => (Raise e, st1)
    | (Ok _, st1) =>
        match body st1 with
        | (Ok _, st2) =>
            match __exit__ None None None st2 with
            | (Ok _, st3) => (Ok tt, st3)
            | (Raise e, st3) => (Raise e, st3)
            end
        | (Raise e, st2) =>
            match __exit__ (Some (class_of e)) (Some e) (Some tt) st2 with
            | (Ok suppress, st3) =>
                if suppress then (Ok tt, st3) else (Raise e, st3)
            | (Raise e', st3) => (Raise e', st3)
            end
        end
    end.

Definition open_udp (target_ip : str) (interface_ip : option str) : M W unit :=
  h <- get_handle ;;
  t <- lift (str_encode target_ip) ;;
  i <- match interface_ip with
       | Some (c :: s) => b <- lift (str_encode (c :: s)) ;; ret (Some b)
       | _ => ret None
       end ;;
  res <- foreign "AbsScpiClient_OpenUdp" [Pointer h; Chars (Some t); Chars i]
           (AbsScpiClient_OpenUdp dll h t i) ;;
  __check_err (c_int res).

Definition open_serial (port : str) (device_id : Z) : M W unit :=
  if device_id <? 0
  then raise (ValueError (literal "device ID out of range: "
                          ++ format_int device_id))
  else
    h <- get_handle ;;
    p <- lift (str_encode port) ;;
    res <- foreign "AbsScpiClient_OpenSerial"
             [Pointer h; Chars (Some p); UInt (c_uint device_id)]
             (AbsScpiClient_OpenSerial dll h p (c_uint device_id)) ;;
    __check_err (c_int res).

Definition get_device_info : M W AbsDeviceInfo.t :=
  let info := AbsDeviceInfo.new in
  h <- get_handle ;;
  ' (res, raw) <- foreign "AbsScpiClient_GetDeviceInfo" [Pointer h; ByRef]
                    (AbsScpiClient_GetDeviceInfo dll h info) ;;
  let info := AbsDeviceInfo.store raw in
  __check_err (c_int res) ;;
  ret info.

Definition get_device_id : M W Z :=
  let dev_id := c_uint8 0 in
  h <- get_handle ;;
  ' (res, raw) <- foreign "AbsScpiClient_GetDeviceId" [Pointer h; ByRef]
                    (AbsScpiClient_GetDeviceId dll h dev_id) ;;
  let dev_id := c_uint8 raw in
  __check_err (c_int res) ;;
  ret dev_id.

Definition get_ip_address : M W AbsEthernetConfig.t :=
  let conf := AbsEthernetConfig.new in
  h <- get_handle ;;
  ' (res, raw) <- foreign "AbsScpiClient_GetIPAddress" [Pointer h; ByRef]
                    (AbsScpiClient_GetIPAddress dll h conf) ;;
  let conf := AbsEthernetConfig.store raw in
  __check_err (c_int res) ;;
  ret conf.

Definition set_ip_address (ip netmask : str) : M W AbsEthernetConfig.t :=
  let conf := AbsEthernetConfig.new in
  i <- lift (str_encode ip) ;;
  conf_ip <- lift (set_char_array 32 (AbsEthernetConfig.ip conf) i) ;;
  n <- lift (str_encode netmask) ;;
  conf_netmask <-
    lift (set_char_array 32 (AbsEthernetConfig.netmask conf) n) ;;
  let conf := {| AbsEthernetConfig.ip := conf_ip;
                 AbsEthernetConfig.netmask := conf_netmask |} in
  h <- get_handle ;;
  ' (res, raw) <- foreign "AbsScpiClient_SetIPAddress" [Pointer h; ByRef]
                    (AbsScpiClient_SetIPAddress dll h conf) ;;
  let conf := AbsEthernetConfig.store raw in
  __check_err (c_int res) ;;
  ret conf.

Definition get_calibration_date : M W str :=
  let buf := zeros 128 in
  let len := c_uint (Z.of_nat (List.length buf)) in
  h <- get_handle ;;
  ' (res, raw) <- foreign "AbsScpiClient_GetCalibrationDate"
                    [Pointer h; ByRef; UInt len]
                    (AbsScpiClient_GetCalibrationDate dll h buf len) ;;
  let buf := fit x00 128 raw in
  __check_err (c_int res) ;;
  lift (bytes_decode (until_nul buf)).

Definition get_error_count : M W Z :=
  let count := c_int 0 in
  h <- get_handle ;;
  ' (res, raw) <- foreign "AbsScpiClient_GetErrorCount" [Pointer h; ByRef]
                    (AbsScpiClient_GetErrorCount dll h count) ;;
  let count := c_int raw in
  __check_err (c_int res) ;;
  ret count.

Definition get_next_error : M W (Z * str) :=
  let buf := zeros 256 in
  let code := c_int16 0 in
  let len := c_uint (Z.of_nat (List.length buf)) in
  h <- get_handle ;;
  ' (res, (raw_code, raw)) <-
      foreign "AbsScpiClient_GetNextError" [Pointer h; ByRef; ByRef; UInt len]
        (AbsScpiClient_GetNextError dll h code buf len) ;;
  let code := c_int16 raw_code in
  let buf := fit x00 256 raw in
  __check_err (c_int res) ;;
  msg <- lift (bytes_decode (until_nul buf)) ;;
  ret (code, msg).

Definition clear_errors : M W unit :=
  h <- get_handle ;;
  res <- foreign "AbsScpiClient_ClearErrors" [Pointer h]
           (AbsScpiClient_ClearErrors dll h) ;;
  __check_err (c_int res).

Definition set_cell_voltage (cell : Z) (voltage : float) : M W unit :=
  h <- get_handle ;;
  res <- foreign "AbsScpiClient_SetCellVoltage"
           [Pointer h; UInt (c_uint cell); Float (c_float voltage)]
           (AbsScpiClient_SetCellVoltage dll h (c_uint cell) (c_float voltage)) ;;
  __check_err (c_int res).

Definition set_all_cell_voltages (voltages : list float) : M W unit :=
  let vals := map c_float voltages in
  let len := c_uint (Z.of_nat (List.length voltages)) in
  h <- get_handle ;;
  res <- foreign "AbsScpiClient_SetAllCellVoltages"
           [Pointer h; ByRef; UInt len]
           (AbsScpiClient_SetAllCellVoltages dll h vals len) ;;
  __check_err (c_int res).

Definition get_cell_voltage_target (cell : Z) : M W float :=
  let voltage := c_float zero in
  h <- get_handle ;;
  ' (res, raw) <- foreign "AbsScpiClient_GetCellVoltageTarget"
                    [Pointer h; UInt (c_uint cell); ByRef]
                    (AbsScpiClient_GetCellVoltageTarget dll h (c_uint cell)
                       voltage) ;;
  let voltage := c_float raw in
  __check_err (c_int res) ;;
  ret voltage.

Definition get_all_cell_voltage_targets : M W (list float) :=
  let voltages := repeat (c_float zero) 8 in
  h <- get_handle ;;
  ' (res, raw) <- foreign "AbsScpiClient_GetAllCellVoltageTargets"
                    [Pointer h; ByRef; UInt (c_uint 8)]
                    (AbsScpiClient_GetAllCellVoltageTargets dll h voltages
                       (c_uint 8)) ;;
  let voltages := map c_float (fit zero 8 raw) in
  __check_err (c_int res) ;;
  ret voltages.

Definition multicast_discovery (interface_ip : str)
    : M W (list AbsEthernetDiscoveryResult.t) :=
  let results := repeat AbsEthernetDiscoveryResult.new 32 in
  let count := c_uint (Z.of_nat (List.length results)) in
  i <- lift (str_encode interface_ip) ;;
  ' (res, (raw, raw_count)) <-
      foreign "AbsScpiClient_MulticastDiscovery" [Chars (Some i); ByRef; ByRef]
        (AbsScpiClient_MulticastDiscovery dll i results count) ;;
  let results :=
    fit AbsEthernetDiscoveryResult.new 32
      (map AbsEthernetDiscoveryResult.store raw) in
  let count := c_uint raw_count in
  __check_err (c_int res) ;;
  ret (firstn (Z.to_nat count) results).

(** The query and command methods of a session, [perform]ed by name. *)
Inductive operation :=
| GetDeviceInfo
| GetDeviceId
| GetIpAddress
| SetIpAddress (ip netmask : str)
| GetCalibrationDate
| GetErrorCount
| GetNextError
| ClearErrors
| SetCellVoltage (cell : Z) (voltage : float)
| SetAllCellVoltages (voltages : list float)
| GetCellVoltageTarget (cell : Z)
| GetAllCellVoltageTargets.

Inductive value :=
| NoValue
| IntValue (n : Z)
| FloatValue (x : float)
| StrValue (s : str)
| FloatList (l : list float)
| DeviceInfoValue (i : AbsDeviceInfo.t)
| EthernetConfigValue (c : AbsEthernetConfig.t)
| ErrorValue (code : Z) (msg : str).

Definition perform (op : operation) : M W value :=
  match op with
  | GetDeviceInfo => i <- get_device_info ;; ret (DeviceInfoValue i)
  | GetDeviceId => n <- get_device_id ;; ret (IntValue n)
  | GetIpAddress => c <- get_ip_address ;; ret (EthernetConfigValue c)
  | SetIpAddress ip netmask =>
      c <- set_ip_address ip netmask ;; ret (EthernetConfigValue c)
  | GetCalibrationDate => s <- get_calibration_date ;; ret (StrValue s)
  | GetErrorCount => n <- get_error_count ;; ret (IntValue n)
  | GetNextError => ' (c, m) <- get_next_error ;; ret (ErrorValue c m)
  | ClearErrors => clear_errors ;; ret NoValue
  | SetCellVoltage cell voltage => set_cell_voltage cell voltage ;; ret NoValue
  | SetAllCellVoltages voltages => set_all_cell_voltages voltages ;; ret NoValue
  | GetCellVoltageTarget cell =>
      x <- get_cell_voltage_target cell ;; ret (FloatValue x)
  | GetAllCellVoltageTargets =>
      l <- get_all_cell_voltage_targets ;; ret (FloatList l)
  end.

End ScpiClient.

(** ** Libraries to run the methods against *)

(** Modelled from the spec: the driver's [AbsScpiClient_ErrorMessage], whose
    code is not in this repository.  The spec has a fixed code->message
    table whose lookup must never fail: unknown codes map to a generic
    'unknown error' message. *)
Definition error_message (table : list (Z * bytes)) (code : Z) : bytes :=
  match find (fun entry => fst entry =? code) table with
  | Some entry => snd entry
  | None => list_byte_of_string "unknown error"
  end.

(** A library whose error messages come from [error_message]. *)
Definition with_error_table {W} (table : list (Z * bytes)) (d : Dll W) : Dll W :=
  {| AbsScpiClient_ErrorMessage :=
       fun code w => (Some (error_message table code), w);
     AbsScpiClient_Init := AbsScpiClient_Init d;
     AbsScpiClient_Destroy := AbsScpiClient_Destroy d;
     AbsScpiClient_OpenUdp := AbsScpiClient_OpenUdp d;
     AbsScpiClient_OpenSerial := AbsScpiClient_OpenSerial d;
     AbsScpiClient_GetDeviceInfo := AbsScpiClient_GetDeviceInfo d;
     AbsScpiClient_GetDeviceId := AbsScpiClient_GetDeviceId d;
     AbsScpiClient_GetIPAddress := AbsScpiClient_GetIPAddress d;
     AbsScpiClient_SetIPAddress := AbsScpiClient_SetIPAddress d;
     AbsScpiClient_GetCalibrationDate := AbsScpiClient_GetCalibrationDate d;
     AbsScpiClient_GetErrorCount := AbsScpiClient_GetErrorCount d;
     AbsScpiClient_GetNextError := AbsScpiClient_GetNextError d;
     AbsScpiClient_ClearErrors := AbsScpiClient_ClearErrors d;
     AbsScpiClient_SetCellVoltage := AbsScpiClient_SetCellVoltage d;
     AbsScpiClient_SetAllCellVoltages := AbsScpiClient_SetAllCellVoltages d;
     AbsScpiClient_GetCellVoltageTarget := AbsScpiClient_GetCellVoltageTarget d;
     AbsScpiClient_GetAllCellVoltageTargets :=
       AbsScpiClient_GetAllCellVoltageTargets d;
     AbsScpiClient_MulticastDiscovery := AbsScpiClient_MulticastDiscovery d |}.

(** A scripted library for running the methods on concrete inputs: every
    call answers from the script, which is the whole world and never
    changes. *)
Record script := {
  status : Z;                (* the code every function returns *)
  message : option bytes;    (* the result of AbsScpiClient_ErrorMessage *)
  unit_id : Z;               (* written by AbsScpiClient_GetDeviceId *)
  text : bytes;              (* written to character buffers *)
  found : list AbsEthernetDiscoveryResult.t  (* discovery replies *)
}.

Definition scripted : Dll script :=
  {| AbsScpiClient_ErrorMessage := fun _ w => (message w, w);
     AbsScpiClient_Init := fun _ w => ((status w, 1), w);
     AbsScpiClient_Destroy := fun _ w => ((0, 0), w);
     AbsScpiClient_OpenUdp := fun _ _ _ w => (status w, w);
     AbsScpiClient_OpenSerial := fun _ _ _ w => (status w, w);
     AbsScpiClient_GetDeviceInfo :=
       fun _ _ w =>
         ((status w,
           {| AbsDeviceInfo.part_number := text w;
              AbsDeviceInfo.serial := text w;
              AbsDeviceInfo.version := text w |}), w);
     AbsScpiClient_GetDeviceId := fun _ _ w => ((status w, unit_id w), w);
     AbsScpiClient_GetIPAddress :=
       fun _ _ w =>
         ((status w,
           {| AbsEthernetConfig.ip := text w;
              AbsEthernetConfig.netmask := text w |}), w);
     AbsScpiClient_SetIPAddress := fun _ conf w => ((status w, conf), w);
     AbsScpiClient_GetCalibrationDate := fun _ _ _ w => ((status w, text w), w);
     AbsScpiClient_GetErrorCount := fun _ _ w => ((status w, 0), w);
     AbsScpiClient_GetNextError := fun _ _ _ _ w => ((status w, (0, text w)), w);
     AbsScpiClient_ClearErrors := fun _ w => (status w, w);
     AbsScpiClient_SetCellVoltage := fun _ _ _ w => (status w, w);
     AbsScpiClient_SetAllCellVoltages := fun _ _ _ w => (status w, w);
     AbsScpiClient_GetCellVoltageTarget := fun _ _ v w => ((status w, v), w);
     AbsScpiClient_GetAllCellVoltageTargets :=
       fun _ vs _ w => ((status w, vs), w);
     AbsScpiClient_MulticastDiscovery :=
       fun _ _ _ w =>
         ((status w, (found w, Z.of_nat (List.length (found w)))), w) |}.

(** A bench where every call succeeds. *)
Definition quiet : script :=
  {| status := 0; message := Some (list_byte_of_string "Success");
     unit_id := 5; text := list_byte_of_string "2024-01-31"; found := [] |}.

(** A bench where every call fails with code -12. *)
Definition failing : script :=
  {| status := -12; message := Some (list_byte_of_string "Timed out");
     unit_id := 5; text := []; found := [] |}.

(** A table to run the lookup on; the driver's own table is not in this
    repository. *)
Definition sample_table : list (Z * bytes) :=
  [(-1, list_byte_of_string "Channel index out of range");
   (-12, list_byte_of_string "Timed out")].

(** A bench whose library fills every character buffer to the brim. *)
Definition brimful : script :=
  {| status := 0; message := None; unit_id := 0;
     text := repeat "A"%byte 256; found := [] |}.

(** A session that was initialised on the failing bench. *)
Definition opened_on_failing : state script :=
  {| handle := 1; world := failing; trace := [] |}.

(** ** Vocabulary of the statements *)

(** A computation that leaves [self.__handle] as it found it, whatever its
    outcome. *)
Definition keeps_handle {W A} (m : M W A) : Prop :=
  forall st, handle (snd (m st)) = handle st.

(** A text whose UTF-8 form has at most [n] bytes. *)
Definition width_at_most (n : nat) (s : str) : Prop :=
  exists k, byte_length s = Some k /\ (k <= n)%nat.

(** A text read from [field], a buffer [width] bytes wide: it is at most
    [width] bytes, and one less when the buffer holds a terminator. *)
Definition read_within (width : nat) (field : bytes) (r : result str) : Prop :=
  forall s, r = Ok s ->
    width_at_most width s /\ (In x00 field -> width_at_most (width - 1) s).

(** The buffer of [get_calibration_date] once the library has filled it. *)
Definition calibration_date_buffer {W} (dll : Dll W) (st : state W) : bytes :=
  fit x00 128
    (snd (fst (AbsScpiClient_GetCalibrationDate dll (handle st) (zeros 128)
                 (c_uint 128) (world st)))).

(** The buffer of [get_next_error] once the library has filled it. *)
Definition next_error_buffer {W} (dll : Dll W) (st : state W) : bytes :=
  fit x00 256
    (snd (snd (fst (AbsScpiClient_GetNextError dll (handle st) (c_int16 0)
                      (zeros 256) (c_uint 256) (world st))))).

(** The log entry of [cleanup]. *)
Definition destroy_call : foreign_call :=
  {| function := "AbsScpiClient_Destroy"; arguments := [ByRef] |}.

(** ** Construction

    [ScpiClient.__init__] asks the platform for its name, looks the library
    up and loads it.  What the platform answers is the [host]. *)

Record host (W : Type) := {
  system : string;                              (* platform.system() *)
  find_library : str -> option str;             (* ctypes.util.find_library *)
  windll_LoadLibrary : str -> result (Dll W);   (* windll.LoadLibrary *)
  cdll_LoadLibrary : str -> result (Dll W)      (* cdll.LoadLibrary *)
}.
Arguments system {W}.
Arguments find_library {W}.
Arguments windll_LoadLibrary {W}.
Arguments cdll_LoadLibrary {W}.

Definition LIB_NAME : str := literal "absscpi".

(** The loader [__init__] picks on this host. *)
Definition load_library_func {W} (env : host W) : str -> result (Dll W) :=
  if String.eqb (system env) "Windows"
  then windll_LoadLibrary env
  else cdll_LoadLibrary env.

(** The built-in classes that derive from [OSError]. *)
Definition OSError_subclasses : list string :=
  ["BlockingIOError"; "ChildProcessError"; "ConnectionError";
   "BrokenPipeError"; "ConnectionAbortedError"; "ConnectionRefusedError";
   "ConnectionResetError"; "FileExistsError"; "FileNotFoundError";
   "InterruptedError"; "IsADirectoryError"; "NotADirectoryError";
   "PermissionError"; "ProcessLookupError"; "TimeoutError"]%string.

(** [isinstance(e, OSError)], the test of [except OSError]: the class
    itself or a class that derives from it.  A class given by name is a
    built-in class. *)
Definition is_OSError (e : exception) : bool :=
  match e with
  | OSError _ => true
  | OtherException c =>
      String.eqb c "OSError" || existsb (String.eqb c) OSError_subclasses
  | _ => false
  end.

(** Returns the new client's handle and library.  The loader is picked
    before the library is looked up; an empty path is as false as [None];
    what the loader raises is replaced when it is an [OSError], of the
    class itself or of a subclass, and goes on as it is otherwise. *)
Definition __init__ {W} (env : host W) (lib : str) : result (Z * Dll W) :=
  let handle := 0 in
  let load_library_func := load_library_func env in
  match find_library env lib with
  | None | Some [] => Raise (OSError (lib ++ literal " library not found"))
  | Some lib_path =>
      match load_library_func lib_path with
      | Ok dll => Ok (handle, dll)
      | Raise e =>
          if is_OSError e
          then Raise (OSError (literal "The SCPI library could not be loaded ("
                               ++ lib_path ++ literal ")"))
          else Raise e
      end
  end.

(** A Linux host where the library is installed. *)
Definition linux_host : host script :=
  {| system := "Linux";
     find_library := fun lib =>
       Some (literal "lib" ++ lib ++ literal ".so");
     windll_LoadLibrary := fun _ => Raise (OtherException "NameError");
     cdll_LoadLibrary := fun _ => Ok scripted |}.




(** A bench where forty units answer the discovery probe. *)
Definition crowded : script :=
  {| status := 0; message := None; unit_id := 0; text := [];
     found := repeat AbsEthernetDiscoveryResult.new 40 |}.

(** The Linux host with a [windll] loader that would answer. *)
Definition linux_host_with_windll : host script :=
  {| system := "Linux";
     find_library := find_library linux_host;
     windll_LoadLibrary := fun _ => Ok scripted;
     cdll_LoadLibrary := cdll_LoadLibrary linux_host |}.

(** ** More vocabulary *)

(** What a method can raise once it has called the library: the error made
    from a negative code, or a failure to read a text the library gave. *)
Definition from_library (e : exception) : Prop :=
  (exists msg, e = ScpiClientError msg) \/ e = AttributeError
  \/ e = UnicodeDecodeError.

(** What marshalling an argument can raise. *)
Definition from_arguments (e : exception) : Prop :=
  e = UnicodeEncodeError \/ exists msg, e = ValueError msg.

(** The library function behind each query and command. *)
Definition function_of (op : operation) : string :=
  match op with
  | GetDeviceInfo => "AbsScpiClient_GetDeviceInfo"
  | GetDeviceId => "AbsScpiClient_GetDeviceId"
  | GetIpAddress => "AbsScpiClient_GetIPAddress"
  | SetIpAddress _ _ => "AbsScpiClient_SetIPAddress"
  | GetCalibrationDate => "AbsScpiClient_GetCalibrationDate"
  | GetErrorCount => "AbsScpiClient_GetErrorCount"
  | GetNextError => "AbsScpiClient_GetNextError"
  | ClearErrors => "AbsScpiClient_ClearErrors"
  | SetCellVoltage _ _ => "AbsScpiClient_SetCellVoltage"
  | SetAllCellVoltages _ => "AbsScpiClient_SetAllCellVoltages"
  | GetCellVoltageTarget _ => "AbsScpiClient_GetCellVoltageTarget"
  | GetAllCellVoltageTargets => "AbsScpiClient_GetAllCellVoltageTargets"
  end.

(** The log entry of a message lookup. *)
Definition lookup_call (code : Z) : foreign_call :=
  {| function := "AbsScpiClient_ErrorMessage"; arguments := [Int code] |}.

(** A read of [field] that loses nothing: the text it gives encodes back to
    the bytes of the field up to its first NUL, and the only way it fails is
    on bytes that are no UTF-8. *)
Definition faithful_read (field : bytes) (r : result str) : Prop :=
  (forall s, r = Ok s -> str_encode s = Ok (until_nul field)) /\
  (forall e, r = Raise e ->
     e = UnicodeDecodeError /\ Utf8.decode (until_nul field) = None).

(** * Facts *)

(** ** UTF-8 *)

Lemma val_range (b : byte) : 0 <= Utf8.val b <= 255.
Proof.
  unfold Utf8.val. pose proof (Byte.to_N_bounded b). lia.
Qed.

Lemma byte_of_val (b : byte) : Utf8.byte_of (Utf8.val b) = b.
Proof.
  unfold Utf8.byte_of, Utf8.val. rewrite N2Z.id, Byte.of_to_N. reflexivity.
Qed.

Lemma cont_range (b : byte) : Utf8.cont b = true -> 0x80 <= Utf8.val b < 0xC0.
Proof.
  unfold Utf8.cont. rewrite andb_true_iff, Z.leb_le, Z.ltb_lt. tauto.
Qed.

Lemma encode_point_1 (b0 : byte) :
  Utf8.val b0 < 0x80 -> Utf8.encode_point (Utf8.val b0) = Some [b0].
Proof.
  intros H. pose proof (val_range b0). unfold Utf8.encode_point.
  destruct (Z.ltb_spec (Utf8.val b0) 0); [lia|].
  destruct (Z.ltb_spec (Utf8.val b0) 0x80); [|lia].
  now rewrite byte_of_val.
Qed.

Lemma encode_point_2 (b0 b1 : byte) :
  0xC2 <= Utf8.val b0 < 0xE0 -> Utf8.cont b1 = true ->
  Utf8.encode_point ((Utf8.val b0 - 0xC0) * 64 + (Utf8.val b1 - 0x80))
  = Some [b0; b1].
Proof.
  intros H0 H1%cont_range. unfold Utf8.encode_point.
  set (c := (Utf8.val b0 - 0xC0) * 64 + (Utf8.val b1 - 0x80)).
  assert (Hc : 0x80 <= c < 0x800) by (unfold c; lia).
  destruct (Z.ltb_spec c 0); [lia|].
  destruct (Z.ltb_spec c 0x80); [lia|].
  destruct (Z.ltb_spec c 0x800); [|lia].
  replace (0xC0 + c / 64) with (Utf8.val b0)
    by (unfold c; Z.to_euclidean_division_equations; lia).
  replace (0x80 + c mod 64) with (Utf8.val b1)
    by (unfold c; Z.to_euclidean_division_equations; lia).
  now rewrite !byte_of_val.
Qed.

Lemma second_of_3_range (n0 n1 : Z) :
  Utf8.second_of_3 n0 n1 = true ->
  (n0 = 0xE0 -> 0xA0 <= n1) /\ (n0 = 0xED -> n1 < 0xA0).
Proof.
  unfold Utf8.second_of_3. rewrite andb_true_iff.
  destruct (Z.eqb_spec n0 0xE0), (Z.eqb_spec n0 0xED);
    rewrite ?Z.leb_le, ?Z.ltb_lt; intuition lia.
Qed.

Lemma second_of_4_range (n0 n1 : Z) :
  Utf8.second_of_4 n0 n1 = true ->
  (n0 = 0xF0 -> 0x90 <= n1) /\ (n0 = 0xF4 -> n1 < 0x90).
Proof.
  unfold Utf8.second_of_4. rewrite andb_true_iff.
  destruct (Z.eqb_spec n0 0xF0), (Z.eqb_spec n0 0xF4);
    rewrite ?Z.leb_le, ?Z.ltb_lt; intuition lia.
Qed.

Lemma encode_point_3 (b0 b1 b2 : byte) :
  0xE0 <= Utf8.val b0 < 0xF0 ->
  Utf8.cont b1 = true -> Utf8.cont b2 = true ->
  Utf8.second_of_3 (Utf8.val b0) (Utf8.val b1) = true ->
  Utf8.encode_point ((Utf8.val b0 - 0xE0) * 4096 + (Utf8.val b1 - 0x80) * 64
                     + (Utf8.val b2 - 0x80))
  = Some [b0; b1; b2].
Proof.
  intros H0 H1%cont_range H2%cont_range [Hlo Hhi]%second_of_3_range.
  unfold Utf8.encode_point.
  set (c := (Utf8.val b0 - 0xE0) * 4096 + (Utf8.val b1 - 0x80) * 64
            + (Utf8.val b2 - 0x80)).
  assert (Hc : 0x800 <= c < 0x10000) by (unfold c; lia).
  assert (Hs : ~ (0xD800 <= c < 0xE000)) by (unfold c; lia).
  destruct (Z.ltb_spec c 0); [lia|].
  destruct (Z.ltb_spec c 0x80); [lia|].
  destruct (Z.ltb_spec c 0x800); [lia|].
  destruct (Z.ltb_spec c 0x10000); [|lia].
  replace ((0xD800 <=? c) && (c <? 0xE000)) with false
    by (destruct (Z.leb_spec 0xD800 c), (Z.ltb_spec c 0xE000);
        try reflexivity; lia).
  replace (0xE0 + c / 4096) with (Utf8.val b0)
    by (unfold c; Z.to_euclidean_division_equations; lia).
  replace (0x80 + (c / 64) mod 64) with (Utf8.val b1)
    by (unfold c; Z.to_euclidean_division_equations; lia).
  replace (0x80 + c mod 64) with (Utf8.val b2)
    by (unfold c; Z.to_euclidean_division_equations; lia).
  now rewrite !byte_of_val.
Qed.

Lemma encode_point_4 (b0 b1 b2 b3 : byte) :
  0xF0 <= Utf8.val b0 < 0xF5 ->
  Utf8.cont b1 = true -> Utf8.cont b2 = true -> Utf8.cont b3 = true ->
  Utf8.second_of_4 (Utf8.val b0) (Utf8.val b1) = true ->
  Utf8.encode_point ((Utf8.val b0 - 0xF0) * 262144 + (Utf8.val b1 - 0x80) * 4096
                     + (Utf8.val b2 - 0x80) * 64 + (Utf8.val b3 - 0x80))
  = Some [b0; b1; b2; b3].
Proof.
  intros H0 H1%cont_range H2%cont_range H3%cont_range
    [Hlo Hhi]%second_of_4_range.
  unfold Utf8.encode_point.
  set (c := (Utf8.val b0 - 0xF0) * 262144 + (Utf8.val b1 - 0x80) * 4096
            + (Utf8.val b2 - 0x80) * 64 + (Utf8.val b3 - 0x80)).
  assert (Hc : 0x10000 <= c < 0x110000) by (unfold c; lia).
  destruct (Z.ltb_spec c 0); [lia|].
  destruct (Z.ltb_spec c 0x80); [lia|].
  destruct (Z.ltb_spec c 0x800); [lia|].
  destruct (Z.ltb_spec c 0x10000); [lia|].
  destruct (Z.ltb_spec c 0x110000); [|lia].
  replace (0xF0 + c / 262144) with (Utf8.val b0)
    by (unfold c; Z.to_euclidean_division_equations; lia).
  replace (0x80 + (c / 4096) mod 64) with (Utf8.val b1)
    by (unfold c; Z.to_euclidean_division_equations; lia).
  replace (0x80 + (c / 64) mod 64) with (Utf8.val b2)
    by (unfold c; Z.to_euclidean_division_equations; lia).
  replace (0x80 + c mod 64) with (Utf8.val b3)
    by (unfold c; Z.to_euclidean_division_equations; lia).
  now rewrite !byte_of_val.
Qed.

Lemma decode_cons (b0 : byte) (r0 : bytes) :
  Utf8.decode (b0 :: r0) =
  let n0 := Utf8.val b0 in
  if n0 <? 0x80 then option_map (cons n0) (Utf8.decode r0)
  else if n0 <? 0xC2 then None
  else if n0 <? 0xE0 then
    match r0 with
    | b1 :: r1 =>
        if Utf8.cont b1
        then option_map (cons ((n0 - 0xC0) * 64 + (Utf8.val b1 - 0x80)))
                        (Utf8.decode r1)
        else None
    | _ => None
    end
  else if n0 <? 0xF0 then
    match r0 with
    | b1 :: b2 :: r2 =>
        if Utf8.cont b1 && Utf8.cont b2 && Utf8.second_of_3 n0 (Utf8.val b1)
        then option_map
               (cons ((n0 - 0xE0) * 4096 + (Utf8.val b1 - 0x80) * 64
                      + (Utf8.val b2 - 0x80)))
               (Utf8.decode r2)
        else None
    | _ => None
    end
  else if n0 <? 0xF5 then
    match r0 with
    | b1 :: b2 :: b3 :: r3 =>
        if Utf8.cont b1 && Utf8.cont b2 && Utf8.cont b3
           && Utf8.second_of_4 n0 (Utf8.val b1)
        then option_map
               (cons ((n0 - 0xF0) * 262144 + (Utf8.val b1 - 0x80) * 4096
                      + (Utf8.val b2 - 0x80) * 64 + (Utf8.val b3 - 0x80)))
               (Utf8.decode r3)
        else None
    | _ => None
    end
  else None.
Proof. reflexivity. Qed.

Lemma option_map_cons_inv {A} (a : A) (o : option (list A)) (l : list A) :
  option_map (cons a) o = Some l -> exists t, o = Some t /\ l = a :: t.
Proof.
  destruct o as [t|]; simpl; [|discriminate].
  intros [= <-]. now exists t.
Qed.

(** Decoding accepts only what encoding produces: a decoded text encodes
    back to the bytes it came from. *)
Lemma decode_encode_bounded (n : nat) :
  forall (bs : bytes) (s : str),
    (List.length bs <= n)%nat ->
    Utf8.decode bs = Some s -> Utf8.encode s = Some bs.
Proof.
  induction n as [|n IH]; intros bs s Hn H.
  - destruct bs; [|simpl in Hn; lia]. now injection H as <-.
  - destruct bs as [|b0 r0]; [now injection H as <-|].
    rewrite decode_cons in H. cbv zeta in H. simpl in Hn.
    destruct (Z.ltb_spec (Utf8.val b0) 0x80) as [L1|L1].
    { apply option_map_cons_inv in H as (t & Ht & ->).
      simpl. rewrite (encode_point_1 b0 L1), (IH r0 t); [reflexivity|lia|easy]. }
    destruct (Z.ltb_spec (Utf8.val b0) 0xC2) as [L2|L2]; [discriminate|].
    destruct (Z.ltb_spec (Utf8.val b0) 0xE0) as [L3|L3].
    { destruct r0 as [|b1 r1]; [discriminate|].
      destruct (Utf8.cont b1) eqn:C1; [|discriminate].
      apply option_map_cons_inv in H as (t & Ht & ->).
      simpl in *. rewrite encode_point_2, (IH r1 t); auto; lia. }
    destruct (Z.ltb_spec (Utf8.val b0) 0xF0) as [L4|L4].
    { destruct r0 as [|b1 [|b2 r2]]; try discriminate.
      destruct (Utf8.cont b1 && Utf8.cont b2
                && Utf8.second_of_3 (Utf8.val b0) (Utf8.val b1)) eqn:C;
        [|discriminate].
      apply andb_true_iff in C as [[C1 C2]%andb_true_iff C3].
      apply option_map_cons_inv in H as (t & Ht & ->).
      simpl in *. rewrite encode_point_3, (IH r2 t); auto; lia. }
    destruct (Z.ltb_spec (Utf8.val b0) 0xF5) as [L5|L5]; [|discriminate].
    destruct r0 as [|b1 [|b2 [|b3 r3]]]; try discriminate.
    destruct (Utf8.cont b1 && Utf8.cont b2 && Utf8.cont b3
              && Utf8.second_of_4 (Utf8.val b0) (Utf8.val b1)) eqn:C;
      [|discriminate].
    apply andb_true_iff in C as [[[C1 C2]%andb_true_iff C3]%andb_true_iff C4].
    apply option_map_cons_inv in H as (t & Ht & ->).
    simpl in *. rewrite encode_point_4, (IH r3 t); auto; lia.
Qed.

Lemma decode_encode (bs : bytes) (s : str) :
  Utf8.decode bs = Some s -> Utf8.encode s = Some bs.
Proof. apply (decode_encode_bounded (List.length bs)). lia. Qed.

Lemma bytes_decode_length (bs : bytes) (s : str) :
  bytes_decode bs = Ok s -> byte_length s = Some (List.length bs).
Proof.
  unfold bytes_decode, byte_length.
  destruct (Utf8.decode bs) as [t|] eqn:D; [|discriminate].
  intros [= <-]. now rewrite (decode_encode _ _ D).
Qed.

(** ** ctypes *)

Lemma until_nul_length (buf : bytes) :
  (List.length (until_nul buf) <= List.length buf)%nat.
Proof.
  induction buf as [|b r IH]; simpl; [lia|].
  destruct (Byte.eqb b x00); simpl; lia.
Qed.

Lemma until_nul_terminated (buf : bytes) :
  In x00 buf -> (List.length (until_nul buf) < List.length buf)%nat.
Proof.
  induction buf as [|b r IH]; simpl; [tauto|].
  intros [-> | Hin].
  - simpl. lia.
  - destruct (Byte.eqb b x00); simpl; [lia|]. apply IH in Hin. lia.
Qed.

Lemma until_nul_full (buf : bytes) :
  ~ In x00 buf -> until_nul buf = buf.
Proof.
  induction buf as [|b r IH]; simpl; [reflexivity|].
  intros Hn. destruct (Byte.eqb b x00) eqn:E.
  - apply Byte.byte_dec_bl in E. tauto.
  - rewrite IH; tauto.
Qed.

Lemma in_firstn {A} (x : A) (n : nat) (l : list A) :
  In x (firstn n l) -> In x l.
Proof.
  intros H. rewrite <- (firstn_skipn n l). apply in_or_app. now left.
Qed.

Lemma fit_length {A} (pad : A) (n : nat) (data : list A) :
  List.length (fit pad n data) = n.
Proof.
  unfold fit. rewrite length_firstn, length_app, repeat_length. lia.
Qed.

Lemma c_uint_range (v : Z) : 0 <= c_uint v < 2 ^ 32.
Proof. unfold c_uint. apply Z.mod_pos_bound. lia. Qed.

Lemma c_uint8_range (v : Z) : 0 <= c_uint8 v <= 255.
Proof. unfold c_uint8. pose proof (Z.mod_pos_bound v (2 ^ 8)). lia. Qed.

Lemma c_int_range (v : Z) : - 2 ^ 31 <= c_int v < 2 ^ 31.
Proof.
  unfold c_int. pose proof (Z.mod_pos_bound (v + 2 ^ 31) (2 ^ 32)). lia.
Qed.

Lemma c_int_small (v : Z) : - 2 ^ 31 <= v < 2 ^ 31 -> c_int v = v.
Proof.
  intros H. unfold c_int. rewrite Z.mod_small; lia.
Qed.

(** A code that came back through a C [int] can always be passed on. *)
Lemma int_argument_c_int (long_bits v : Z) :
  32 <= long_bits ->
  int_argument long_bits (c_int v) = Some (c_int v).
Proof.
  intros Hl. unfold int_argument.
  pose proof (c_int_range v) as Hr.
  assert (2 ^ 31 <= 2 ^ (long_bits - 1)) by (apply Z.pow_le_mono_r; lia).
  assert (2 ^ 31 <= 2 ^ long_bits) by (apply Z.pow_le_mono_r; lia).
  destruct (Z.leb_spec (- 2 ^ (long_bits - 1)) (c_int v)); [|lia].
  destruct (Z.ltb_spec (c_int v) (2 ^ long_bits)); [|lia].
  simpl. now rewrite c_int_small.
Qed.

(** A text read from a buffer of [n] bytes is at most [n] bytes wide, and
    narrower when the buffer holds a terminator. *)
Lemma buffer_text_width (n : nat) (raw : bytes) (s : str) :
  bytes_decode (until_nul (fit x00 n raw)) = Ok s ->
  width_at_most n s /\
  (In x00 (fit x00 n raw) -> width_at_most (n - 1) s).
Proof.
  intros H%bytes_decode_length.
  pose proof (until_nul_length (fit x00 n raw)) as Hle.
  rewrite fit_length in Hle.
  split.
  - eexists; split; [exact H | exact Hle].
  - intros Hin%until_nul_terminated. rewrite fit_length in Hin.
    eexists; split; [exact H | lia].
Qed.

(** ** The monad *)

Section Run.

Context {W : Type}.

Lemma bind_ok {A B} (m : M W A) (k : A -> M W B) st b st' :
  bind m k st = (Ok b, st') ->
  exists a st1, m st = (Ok a, st1) /\ k a st1 = (Ok b, st').
Proof.
  unfold bind. destruct (m st) as [[a|e] st1]; [|discriminate].
  intros H. now exists a, st1.
Qed.

Lemma bind_step {A B} (m : M W A) (k : A -> M W B) st a st1 :
  m st = (Ok a, st1) -> bind m k st = k a st1.
Proof. unfold bind. now intros ->. Qed.

Lemma bind_raise {A B} (m : M W A) (k : A -> M W B) st e st1 :
  m st = (Raise e, st1) -> bind m k st = (Raise e, st1).
Proof. unfold bind. now intros ->. Qed.

Lemma foreign_run {A} name args (f : W -> A * W) (st : state W) :
  foreign name args f st =
  (Ok (fst (f (world st))),
   {| handle := handle st; world := snd (f (world st));
      trace := {| function := name; arguments := args |} :: trace st |}).
Proof. unfold foreign. now destruct (f (world st)). Qed.

Lemma keeps_handle_ret {A} (a : A) : keeps_handle (@ret W A a).
Proof. now intros st. Qed.

Lemma keeps_handle_raise {A} e : keeps_handle (@raise W A e).
Proof. now intros st. Qed.

Lemma keeps_handle_lift {A} (r : result A) : keeps_handle (@lift W A r).
Proof. now intros st. Qed.

Lemma keeps_handle_get : keeps_handle (@get_handle W).
Proof. now intros st. Qed.

Lemma keeps_handle_foreign {A} name args (f : W -> A * W) :
  keeps_handle (foreign name args f).
Proof. intros st. now rewrite foreign_run. Qed.

Lemma keeps_handle_bind {A B} (m : M W A) (k : A -> M W B) :
  keeps_handle m -> (forall a, keeps_handle (k a)) -> keeps_handle (bind m k).
Proof.
  intros Hm Hk st. unfold bind. specialize (Hm st).
  destruct (m st) as [[a|e] st1]; simpl in *; [|exact Hm].
  now rewrite Hk.
Qed.

End Run.

Create HintDb frame.
#[local] Hint Resolve keeps_handle_ret keeps_handle_raise keeps_handle_lift
  keeps_handle_get keeps_handle_foreign keeps_handle_bind : frame.
#[local] Hint Extern 1 (keeps_handle (match ?x with _ => _ end)) =>
  destruct x : frame.
#[local] Hint Extern 1 (keeps_handle _) => progress cbv beta zeta : frame.

(** ** The methods *)

Section Methods.

Context {W : Type}.
Variable long_bits : Z.
Variable dll : Dll W.

Lemma err_msg_keeps_handle err : keeps_handle (err_msg long_bits dll err).
Proof. unfold err_msg. auto 10 with frame. Qed.

Lemma check_err_keeps_handle err : keeps_handle (__check_err long_bits dll err).
Proof.
  unfold __check_err. pose proof (err_msg_keeps_handle err).
  auto 10 with frame.
Qed.

(** The message lookup raises no [ScpiClientError] of its own. *)
Lemma err_msg_raises err st e st' :
  err_msg long_bits dll err st = (Raise e, st') ->
  e = ArgumentError \/ e = AttributeError \/ e = UnicodeDecodeError.
Proof.
  unfold err_msg.
  destruct (int_argument long_bits err) as [code|]; [|intros [= <- _]; auto].
  unfold bind. rewrite foreign_run.
  destruct (fst _) as [mem|]; [|intros [= <- _]; auto].
  unfold lift, bytes_decode.
  destruct (Utf8.decode _); [discriminate|intros [= <- _]; auto].
Qed.

Lemma check_err_ok err st :
  0 <= err -> __check_err long_bits dll err st = (Ok tt, st).
Proof.
  intros H. unfold __check_err.
  destruct (Z.ltb_spec err 0); [lia|reflexivity].
Qed.

Lemma check_err_negative err st :
  err < 0 ->
  __check_err long_bits dll err st =
  match err_msg long_bits dll err st with
  | (Ok msg, st') => (Raise (ScpiClientError msg), st')
  | (Raise e, st') => (Raise e, st')
  end.
Proof.
  intros H. unfold __check_err.
  destruct (Z.ltb_spec err 0); [|lia].
  unfold bind. now destruct (err_msg long_bits dll err st) as [[msg|e] st'].
Qed.

Lemma check_err_is_ok err st :
  is_ok (fst (__check_err long_bits dll err st)) = true <-> 0 <= err.
Proof.
  destruct (Z.lt_ge_cases err 0) as [Hn|Hp].
  - rewrite check_err_negative by exact Hn.
    destruct (err_msg long_bits dll err st) as [[msg|e] st']; simpl; split;
      [discriminate|lia|discriminate|lia].
  - rewrite check_err_ok by exact Hp. simpl. tauto.
Qed.

(** Checking a code only ever adds the message lookup to the log. *)
Lemma check_err_trace err st :
  exists rest, trace (snd (__check_err long_bits dll err st)) = rest ++ trace st.
Proof.
  destruct (Z.lt_ge_cases err 0) as [Hn|Hp].
  - rewrite check_err_negative by exact Hn.
    unfold err_msg.
    destruct (int_argument long_bits err) as [code|];
      [|now exists []].
    unfold bind. rewrite foreign_run.
    eexists [_].
    destruct (fst _) as [mem|]; [|reflexivity].
    unfold lift. now destruct (bytes_decode _).
  - rewrite check_err_ok by exact Hp. now exists [].
Qed.

#[local] Hint Resolve check_err_keeps_handle : frame.

(** Every query and command passes [self.__handle] by value and never
    assigns it. *)
Lemma perform_keeps_handle (op : operation) :
  keeps_handle (perform long_bits dll op).
Proof.
  destruct op; unfold perform;
    unfold get_device_info, get_device_id, get_ip_address, set_ip_address,
      get_calibration_date, get_error_count, get_next_error, clear_errors,
      set_cell_voltage, set_all_cell_voltages, get_cell_voltage_target,
      get_all_cell_voltage_targets;
    auto 40 with frame.
Qed.




(** C7. A query or command that fails leaves the session's handle as it
    was: the client is in the state it was opened in and the call can be
    made again. *)
Theorem failure_keeps_session (op : operation) (st : state W) e st' :
  perform long_bits dll op st = (Raise e, st') -> handle st' = handle st.
Proof.
  intros H. pose proof (perform_keeps_handle op st) as K.
  now rewrite H in K.
Qed.

(** C1, as the code has it. [set_cell_voltage] checks nothing itself: for
    every channel index, inside [0,7] or not, it calls
    [AbsScpiClient_SetCellVoltage] with [c_uint(cell)] and
    [c_float(voltage)], and it returns normally exactly when the code that
    call returned is not negative. *)
Theorem set_cell_voltage_delegates (cell : Z) (voltage : float) (st : state W) :
  let out := set_cell_voltage long_bits dll cell voltage st in
  let res := fst (AbsScpiClient_SetCellVoltage dll (handle st) (c_uint cell)
                    (c_float voltage) (world st)) in
  (exists rest,
      trace (snd out) =
      rest ++ {| function := "AbsScpiClient_SetCellVoltage";
                 arguments := [Pointer (handle st); UInt (c_uint cell);
                               Float (c_float voltage)] |} :: trace st) /\
  (is_ok (fst out) = true <-> 0 <= c_int res).
Proof.
  cbv zeta. unfold set_cell_voltage, bind, get_handle.
  rewrite foreign_run. cbn [fst snd].
  set (st1 := {| handle := _ |}).
  split; [apply (check_err_trace _ st1) | apply check_err_is_ok].
Qed.

(** C2, as the code has it. [set_all_cell_voltages] checks nothing itself:
    for a sequence of any length it calls [AbsScpiClient_SetAllCellVoltages]
    with the values narrowed to binary32 and their count, and it returns
    normally exactly when the code that call returned is not negative. *)
Theorem set_all_cell_voltages_delegates (voltages : list float) (st : state W) :
  let out := set_all_cell_voltages long_bits dll voltages st in
  let len := c_uint (Z.of_nat (List.length voltages)) in
  let res := fst (AbsScpiClient_SetAllCellVoltages dll (handle st)
                    (map c_float voltages) len (world st)) in
  (exists rest,
      trace (snd out) =
      rest ++ {| function := "AbsScpiClient_SetAllCellVoltages";
                 arguments := [Pointer (handle st); ByRef; UInt len] |}
           :: trace st) /\
  (is_ok (fst out) = true <-> 0 <= c_int res).
Proof.
  cbv zeta. unfold set_all_cell_voltages, bind, get_handle.
  rewrite foreign_run. cbn [fst snd].
  set (st1 := {| handle := _ |}).
  split; [apply (check_err_trace _ st1) | apply check_err_is_ok].
Qed.


(** C10. What [get_device_id] returns was read through a [c_uint8]: it
    lies in [0,255] whatever the library wrote. *)
Theorem get_device_id_is_a_byte (st : state W) (v : Z) (st' : state W) :
  get_device_id long_bits dll st = (Ok v, st') -> 0 <= v <= 255.
Proof.
  unfold get_device_id. cbv zeta. unfold bind, get_handle.
  rewrite foreign_run. cbn [fst snd].
  destruct (fst _) as [res raw].
  destruct (__check_err _ _ _ _) as [[[]|e] st1]; [|discriminate].
  intros [= <- _]. apply c_uint8_range.
Qed.

(** C5. A discovery that the library reports as successful with a count of
    zero returns the empty list and raises nothing; and whatever count the
    library reports, the list returned has at most 32 entries. *)
Theorem multicast_discovery_bounded (interface_ip : str) (st : state W) :
  (forall i res raw n w,
      str_encode interface_ip = Ok i ->
      AbsScpiClient_MulticastDiscovery dll i
        (repeat AbsEthernetDiscoveryResult.new 32) (c_uint 32) (world st)
      = ((res, (raw, n)), w) ->
      0 <= c_int res -> c_uint n = 0 ->
      fst (multicast_discovery long_bits dll interface_ip st) = Ok []) /\
  (forall found st',
      multicast_discovery long_bits dll interface_ip st = (Ok found, st') ->
      (List.length found <= 32)%nat).
Proof.
  unfold multicast_discovery. cbv zeta. unfold bind, lift. split.
  - intros i res raw n w Hi Hcall Hres Hn.
    rewrite Hi, foreign_run. cbn [fst snd].
    change (c_uint (Z.of_nat (List.length
              (repeat AbsEthernetDiscoveryResult.new 32)))) with (c_uint 32).
    rewrite Hcall. cbn [fst snd].
    rewrite check_err_ok by exact Hres. unfold ret. now rewrite Hn.
  - intros found st'.
    destruct (str_encode interface_ip) as [i|e]; [|discriminate].
    rewrite foreign_run. cbn [fst snd].
    destruct (fst _) as [res [raw n]].
    destruct (__check_err _ _ _ _) as [[[]|e] st1]; [|discriminate].
    intros [= <- _]. rewrite length_firstn, fit_length. lia.
Qed.

Lemma cleanup_run (st : state W) :
  fst (cleanup dll st) = Ok tt /\
  trace (snd (cleanup dll st)) = destroy_call :: trace st.
Proof.
  unfold cleanup, bind, get_handle. rewrite foreign_run.
  now destruct (fst (AbsScpiClient_Destroy _ _ _)) as [r h'].
Qed.

Lemma cleanup_state (st : state W) :
  cleanup dll st =
  (Ok tt,
   {| handle := snd (fst (AbsScpiClient_Destroy dll (handle st) (world st)));
      world := snd (AbsScpiClient_Destroy dll (handle st) (world st));
      trace := destroy_call :: trace st |}).
Proof.
  unfold cleanup, bind, get_handle. rewrite foreign_run.
  now destruct (AbsScpiClient_Destroy dll (handle st) (world st))
    as [[r h'] w].
Qed.

(** C9. [__exit__] runs [cleanup] whatever exception it is told about, none
    included: it returns [None] and leaves the client as the call of
    [AbsScpiClient_Destroy] on its handle left it. Hence a [with] block
    that was entered ends with that call on the state its body left, both
    when the body returns and when it raises, and the body's outcome is the
    block's. *)
Theorem exit_always_cleans_up :
  (forall exc_type exc_value traceback (st : state W),
      let destroyed := AbsScpiClient_Destroy dll (handle st) (world st) in
      __exit__ dll exc_type exc_value traceback st =
      (Ok false,
       {| handle := snd (fst destroyed); world := snd destroyed;
          trace := destroy_call :: trace st |})) /\
  (forall (body : M W unit) st st1,
      __enter__ long_bits dll st = (Ok tt, st1) ->
      let st2 := snd (body st1) in
      let destroyed := AbsScpiClient_Destroy dll (handle st2) (world st2) in
      with_block long_bits dll body st =
      (fst (body st1),
       {| handle := snd (fst destroyed); world := snd destroyed;
          trace := destroy_call :: trace st2 |})).
Proof.
  assert (E : forall exc_type exc_value traceback (st : state W),
             __exit__ dll exc_type exc_value traceback st =
             (Ok false,
              {| handle := snd (fst (AbsScpiClient_Destroy dll (handle st)
                                       (world st)));
                 world := snd (AbsScpiClient_Destroy dll (handle st)
                                 (world st));
                 trace := destroy_call :: trace st |})).
  { intros exc_type exc_value traceback st.
    unfold __exit__, bind. now rewrite cleanup_state. }
  split; [exact E|].
  intros body st st1 Henter. cbv zeta. unfold with_block. rewrite Henter.
  destruct (body st1) as [[[]|e] st2]; cbn [fst snd]; now rewrite E.
Qed.

Lemma read_within_fit (width : nat) (raw : bytes) :
  read_within width (fit x00 width raw)
    (bytes_decode (until_nul (fit x00 width raw))).
Proof. intros s H. now apply buffer_text_width. Qed.

Lemma get_device_info_stored (st : state W) info st' :
  get_device_info long_bits dll st = (Ok info, st') ->
  exists raw, info = AbsDeviceInfo.store raw.
Proof.
  unfold get_device_info. cbv zeta. unfold bind, get_handle.
  rewrite foreign_run. cbn [fst snd].
  destruct (fst _) as [res raw].
  destruct (__check_err _ _ _ _) as [[[]|e] st1]; [|discriminate].
  intros [= <- _]. now exists raw.
Qed.

Lemma get_ip_address_stored (st : state W) conf st' :
  get_ip_address long_bits dll st = (Ok conf, st') ->
  exists raw, conf = AbsEthernetConfig.store raw.
Proof.
  unfold get_ip_address. cbv zeta. unfold bind, get_handle.
  rewrite foreign_run. cbn [fst snd].
  destruct (fst _) as [res raw].
  destruct (__check_err _ _ _ _) as [[[]|e] st1]; [|discriminate].
  intros [= <- _]. now exists raw.
Qed.

Lemma set_ip_address_stored ip netmask (st : state W) conf st' :
  set_ip_address long_bits dll ip netmask st = (Ok conf, st') ->
  exists raw, conf = AbsEthernetConfig.store raw.
Proof.
  unfold set_ip_address. cbv zeta. unfold bind, get_handle, lift.
  destruct (str_encode ip) as [i|e]; [|discriminate].
  destruct (set_char_array _ _ i) as [ci|e]; [|discriminate].
  destruct (str_encode netmask) as [n|e]; [|discriminate].
  destruct (set_char_array _ _ n) as [cn|e]; [|discriminate].
  rewrite foreign_run. cbn [fst snd].
  destruct (fst _) as [res raw].
  destruct (__check_err _ _ _ _) as [[[]|e] st1]; [|discriminate].
  intros [= <- _]. now exists raw.
Qed.

Lemma multicast_discovery_stored interface_ip (st : state W) found st' :
  multicast_discovery long_bits dll interface_ip st = (Ok found, st') ->
  forall r, In r found -> exists raw, r = AbsEthernetDiscoveryResult.store raw.
Proof.
  unfold multicast_discovery. cbv zeta. unfold bind, lift.
  destruct (str_encode interface_ip) as [i|e]; [|discriminate].
  rewrite foreign_run. cbn [fst snd].
  destruct (fst _) as [res [raw n]].
  destruct (__check_err _ _ _ _) as [[[]|e] st1]; [|discriminate].
  intros [= <- _] r Hin.
  apply in_firstn in Hin. unfold fit in Hin. apply in_firstn in Hin.
  apply in_app_or in Hin as [Hin|Hin].
  - apply in_map_iff in Hin as (x & <- & _). now exists x.
  - apply repeat_spec in Hin as ->. now exists AbsEthernetDiscoveryResult.new.
Qed.

(** C8, as the code has it. A text handed to the caller is never wider than
    the buffer it was read from: 128 bytes for [part_number], [serial] and
    [version], 32 for [ip] and [netmask], 256 for the message of
    [get_next_error], 128 for the calibration date; and it is one byte
    narrower (127, 31, 255, 127) whenever the buffer holds a terminator. *)
Theorem text_fits_its_field :
  (forall (st : state W) info st',
      get_device_info long_bits dll st = (Ok info, st') ->
      read_within 128 (AbsDeviceInfo.part_number info)
        (AbsDeviceInfo.get_part_number info) /\
      read_within 128 (AbsDeviceInfo.serial info)
        (AbsDeviceInfo.get_serial info) /\
      read_within 128 (AbsDeviceInfo.version info)
        (AbsDeviceInfo.get_version info)) /\
  (forall (st : state W) conf st',
      get_ip_address long_bits dll st = (Ok conf, st') ->
      read_within 32 (AbsEthernetConfig.ip conf)
        (AbsEthernetConfig.get_ip_address conf) /\
      read_within 32 (AbsEthernetConfig.netmask conf)
        (AbsEthernetConfig.get_netmask conf)) /\
  (forall ip netmask (st : state W) conf st',
      set_ip_address long_bits dll ip netmask st = (Ok conf, st') ->
      read_within 32 (AbsEthernetConfig.ip conf)
        (AbsEthernetConfig.get_ip_address conf) /\
      read_within 32 (AbsEthernetConfig.netmask conf)
        (AbsEthernetConfig.get_netmask conf)) /\
  (forall interface_ip (st : state W) found st',
      multicast_discovery long_bits dll interface_ip st = (Ok found, st') ->
      forall r, In r found ->
      read_within 32 (AbsEthernetDiscoveryResult.ip r)
        (AbsEthernetDiscoveryResult.get_ip_address r) /\
      read_within 128 (AbsEthernetDiscoveryResult.serial r)
        (AbsEthernetDiscoveryResult.get_serial r)) /\
  (forall (st : state W) s st',
      get_calibration_date long_bits dll st = (Ok s, st') ->
      width_at_most 128 s /\
      (In x00 (calibration_date_buffer dll st) -> width_at_most 127 s)) /\
  (forall (st : state W) code s st',
      get_next_error long_bits dll st = (Ok (code, s), st') ->
      width_at_most 256 s /\
      (In x00 (next_error_buffer dll st) -> width_at_most 255 s)).
Proof.
  split; [|split; [|split; [|split; [|split]]]].
  - intros st info st' H. apply get_device_info_stored in H as [raw ->].
    repeat apply conj; apply read_within_fit.
  - intros st conf st' H. apply get_ip_address_stored in H as [raw ->].
    split; apply read_within_fit.
  - intros ip netmask st conf st' H.
    apply set_ip_address_stored in H as [raw ->].
    split; apply read_within_fit.
  - intros interface_ip st found st' H r Hr.
    destruct (multicast_discovery_stored _ _ _ _ H _ Hr) as [raw ->].
    split; apply read_within_fit.
  - intros st s st'. unfold get_calibration_date, calibration_date_buffer.
    cbv zeta. unfold bind, get_handle, lift. rewrite foreign_run.
    change (c_uint (Z.of_nat (List.length (zeros 128)))) with (c_uint 128).
    cbn [fst snd].
    destruct (fst (AbsScpiClient_GetCalibrationDate _ _ _ _ _)) as [res raw].
    cbn [fst snd].
    destruct (__check_err _ _ _ _) as [[[]|e] st1]; [|discriminate].
    destruct (bytes_decode _) as [t|e] eqn:D; [|discriminate].
    intros [= <- _]. now apply buffer_text_width in D.
  - intros st code s st'. unfold get_next_error, next_error_buffer.
    cbv zeta. unfold bind, get_handle, lift, ret. rewrite foreign_run.
    change (c_uint (Z.of_nat (List.length (zeros 256)))) with (c_uint 256).
    cbn [fst snd].
    destruct (fst (AbsScpiClient_GetNextError _ _ _ _ _ _))
      as [res [raw_code raw]].
    cbn [fst snd].
    destruct (__check_err _ _ _ _) as [[[]|e] st1]; [|discriminate].
    destruct (bytes_decode _) as [t|e] eqn:D; [|discriminate].
    intros [= _ <- _]. now apply buffer_text_width in D.
Qed.

(** The channel index reaches the library modulo 2^32: indices that differ
    by a multiple of 2^32 are the same request. *)
Lemma set_cell_voltage_wraps (cell : Z) (voltage : float) (st : state W) :
  set_cell_voltage long_bits dll (cell + 2 ^ 32) voltage st
  = set_cell_voltage long_bits dll cell voltage st.
Proof.
  unfold set_cell_voltage.
  replace (c_uint (cell + 2 ^ 32)) with (c_uint cell); [reflexivity|].
  unfold c_uint. rewrite <- (Z.mul_1_l (2 ^ 32)) at 2.
  now rewrite Z.mod_add by lia.
Qed.

(** An address longer than its 32-byte field is refused by the field
    assignment, before the library is called. *)
Lemma set_ip_address_refuses_long_ip (ip netmask : str) (i : bytes)
    (st : state W) :
  str_encode ip = Ok i ->
  (32 < List.length (until_nul i))%nat ->
  exists msg,
    set_ip_address long_bits dll ip netmask st = (Raise (ValueError msg), st).
Proof.
  intros Hi Hlong. unfold set_ip_address. cbv zeta.
  unfold bind, lift. rewrite Hi. unfold set_char_array.
  destruct (Nat.ltb_spec (List.length (until_nul i)) 32); [lia|].
  destruct (Nat.ltb_spec 32 (List.length (until_nul i))); [|lia].
  eexists. reflexivity.
Qed.

(** An identifier of 256 or more that fits a C unsigned int reaches the
    library as it is, so still as 256 or more. *)
Lemma c_uint_keeps_broadcast (device_id : Z) :
  256 <= device_id < 2 ^ 32 -> c_uint device_id = device_id.
Proof. intros H. unfold c_uint. apply Z.mod_small. lia. Qed.

(** The list of targets has eight entries whenever it is returned. *)
Lemma get_all_cell_voltage_targets_length (st : state W) l st' :
  get_all_cell_voltage_targets long_bits dll st = (Ok l, st') ->
  List.length l = 8%nat.
Proof.
  unfold get_all_cell_voltage_targets. cbv zeta. unfold bind, get_handle.
  rewrite foreign_run. cbn [fst snd].
  destruct (fst _) as [res raw].
  destruct (__check_err _ _ _ _) as [[[]|e] st1]; [|discriminate].
  intros [= <- _]. now rewrite length_map, fit_length.
Qed.

End Methods.

(** ** The message lookup over the table of the spec *)

Lemma find_some_in {A} (f : A -> bool) (l : list A) (x : A) :
  find f l = Some x -> In x l.
Proof. intros H. now apply find_some in H. Qed.

(** C4, as the code has it. Over a library whose messages come from a fixed
    table of UTF-8 texts with a generic default, [err_msg] raises nothing
    and returns a message for every integer that [ctypes] can pass on, that
    is every integer that fits a C long or unsigned long. The library reads
    the code as a C int: the message is the table's text for that C int, or
    the generic text when the table lists none. For a code in the range of
    a C int, as every code a library call returns is, that C int is the
    code itself. *)
Theorem err_msg_total_on_c_integers {W} (long_bits : Z) (d : Dll W)
    (table : list (Z * bytes)) (err : Z) (st : state W) :
  Forall (fun entry => Utf8.decode (until_nul (snd entry)) <> None) table ->
  - 2 ^ (long_bits - 1) <= err < 2 ^ long_bits ->
  exists msg,
    err_msg long_bits (with_error_table table d) err st =
    (Ok msg,
     {| handle := handle st; world := world st;
        trace := {| function := "AbsScpiClient_ErrorMessage";
                    arguments := [Int (c_int err)] |} :: trace st |}) /\
    bytes_decode (until_nul (error_message table (c_int err))) = Ok msg /\
    (forall entry,
        find (fun entry => fst entry =? c_int err) table = Some entry ->
        bytes_decode (until_nul (snd entry)) = Ok msg) /\
    (find (fun entry => fst entry =? c_int err) table = None ->
     msg = literal "unknown error") /\
    (- 2 ^ 31 <= err < 2 ^ 31 -> c_int err = err).
Proof.
  intros Htable Hrange. unfold err_msg, int_argument.
  destruct (Z.leb_spec (- 2 ^ (long_bits - 1)) err); [|lia].
  destruct (Z.ltb_spec err (2 ^ long_bits)); [|lia].
  cbn [andb]. unfold bind. rewrite foreign_run. cbn [fst snd with_error_table
    AbsScpiClient_ErrorMessage].
  unfold lift, bytes_decode, error_message.
  destruct (find _ table) as [entry|] eqn:F.
  - apply find_some_in in F. rewrite Forall_forall in Htable.
    specialize (Htable entry F).
    destruct (Utf8.decode (until_nul (snd entry))) as [msg|] eqn:D; [|tauto].
    exists msg. split; [reflexivity|]. split; [reflexivity|].
    split; [intros e [= <-]; now rewrite D|].
    split; [discriminate | apply c_int_small].
  - exists (literal "unknown error"). split; [reflexivity|].
    split; [reflexivity|]. split; [discriminate|].
    split; [reflexivity | apply c_int_small].
Qed.

(** ** Runs on concrete inputs *)

(** Against C1 as stated: on a bench that answers 0, channel 8 is accepted,
    and the request went to the library. *)
Lemma set_cell_voltage_accepts_channel_8 :
  ~ 0 <= 8 <= 7 /\
  fst (set_cell_voltage 64 scripted 8 4.5 (new_client quiet)) = Ok tt /\
  trace (snd (set_cell_voltage 64 scripted 8 4.5 (new_client quiet))) =
  [{| function := "AbsScpiClient_SetCellVoltage";
      arguments := [Pointer 0; UInt 8; Float 4.5] |}].
Proof. split; [lia|]. split; reflexivity. Qed.

(** Against C2 as stated: on a bench that answers 0, three values are
    accepted, and the request went to the library with a count of 3. *)
Lemma set_all_cell_voltages_accepts_3_values :
  List.length [1.5; 2.5; 3.5]%float <> 8%nat /\
  fst (set_all_cell_voltages 64 scripted [1.5; 2.5; 3.5]%float
         (new_client quiet)) = Ok tt /\
  trace (snd (set_all_cell_voltages 64 scripted [1.5; 2.5; 3.5]%float
                (new_client quiet))) =
  [{| function := "AbsScpiClient_SetAllCellVoltages";
      arguments := [Pointer 0; ByRef; UInt 3] |}].
Proof. split; [discriminate|]. split; reflexivity. Qed.

(** Against C4 as stated: 2^64 fits no C long, so the lookup raises before
    the library is reached. *)
Lemma err_msg_rejects_wide_integer :
  err_msg 64 (with_error_table sample_table scripted) (2 ^ 64)
    (new_client quiet)
  = (Raise ArgumentError, new_client quiet).
Proof. reflexivity. Qed.

(** Against C8 as stated: when the library fills the 128 bytes of
    [part_number], the text returned is 128 bytes wide. *)
Lemma part_number_fills_its_field :
  exists info st',
    get_device_info 64 scripted (new_client brimful) = (Ok info, st') /\
    AbsDeviceInfo.get_part_number info = Ok (repeat 65 128) /\
    byte_length (repeat 65 128) = Some 128%nat /\
    ~ width_at_most 127 (repeat 65 128).
Proof.
  eexists. eexists. split; [reflexivity|].
  split; [reflexivity|]. split; [reflexivity|].
  intros (k & Hk & Hle). vm_compute in Hk. injection Hk as <-. lia.
Qed.



(** C4 at a code the sample table does not list. *)
Lemma err_msg_total_on_c_integers_witness :
  exists msg st',
    err_msg 64 (with_error_table sample_table scripted) (-7) (new_client quiet)
    = (Ok msg, st') /\ msg = literal "unknown error".
Proof.
  destruct (err_msg_total_on_c_integers 64 scripted sample_table (-7)
              (new_client quiet)) as (msg & Hrun & _ & _ & Hdefault & _).
  - repeat constructor; vm_compute; discriminate.
  - vm_compute. split; [discriminate | reflexivity].
  - exists msg. eexists. split; [exact Hrun | now apply Hdefault].
Defined.

(** The library reads a code as a C int: 2^32 - 1 is its -1. *)
Example err_msg_reads_a_c_int :
  fst (err_msg 64 (with_error_table sample_table scripted) (2 ^ 32 - 1)
         (new_client quiet))
  = Ok (literal "Channel index out of range").
Proof. reflexivity. Qed.

(** C5 on a bench where nothing answers the probe. *)
Lemma multicast_discovery_bounded_witness :
  fst (multicast_discovery 64 scripted (literal "10.0.0.1") (new_client quiet))
  = Ok [] /\
  (forall found st',
      multicast_discovery 64 scripted (literal "10.0.0.1") (new_client quiet)
      = (Ok found, st') -> (List.length found <= 32)%nat).
Proof.
  destruct (multicast_discovery_bounded 64 scripted (literal "10.0.0.1")
              (new_client quiet)) as [Hzero Hcap].
  split; [|exact Hcap].
  eapply Hzero; [reflexivity | reflexivity | vm_compute; discriminate
                | reflexivity].
Defined.



(** C7 on the failing bench: the query fails and the handle is still 1. *)
Lemma failure_keeps_session_witness :
  exists e st',
    perform 64 scripted GetAllCellVoltageTargets opened_on_failing
    = (Raise e, st') /\
    handle st' = 1.
Proof.
  eexists. eexists. split; [reflexivity|].
  eapply (failure_keeps_session 64 scripted GetAllCellVoltageTargets
            opened_on_failing).
  reflexivity.
Defined.

(** C8 at a calibration date of ten characters. *)
Lemma text_fits_its_field_witness :
  fst (get_calibration_date 64 scripted (new_client quiet))
  = Ok (literal "2024-01-31") /\
  width_at_most 127 (literal "2024-01-31").
Proof.
  split; [reflexivity|].
  pose proof (text_fits_its_field 64 scripted) as (_ & _ & _ & _ & Hdate & _).
  apply (Hdate (new_client quiet) (literal "2024-01-31")
           (snd (get_calibration_date 64 scripted (new_client quiet))));
    [reflexivity|].
  vm_compute. auto 20.
Defined.

(** C9 at a body that raises. *)
Lemma exit_always_cleans_up_witness :
  let body := raise (OtherException "KeyboardInterrupt") in
  let out := with_block 64 scripted body (new_client quiet) in
  fst out = Raise (OtherException "KeyboardInterrupt") /\
  handle (snd out) = 0 /\
  exists calls, trace (snd out) = destroy_call :: calls.
Proof.
  cbv zeta.
  pose proof (proj2 (exit_always_cleans_up 64 scripted)
                (raise (OtherException "KeyboardInterrupt"))
                (new_client quiet) _ eq_refl) as H.
  cbv zeta in H. rewrite H.
  split; [reflexivity|]. split; [reflexivity|]. eexists. reflexivity.
Defined.

(** C10 on the quiet bench. *)
Lemma get_device_id_is_a_byte_witness :
  exists v st',
    get_device_id 64 scripted (new_client quiet) = (Ok v, st') /\
    0 <= v <= 255.
Proof.
  eexists. eexists. split; [reflexivity|].
  eapply (get_device_id_is_a_byte 64 scripted (new_client quiet)).
  reflexivity.
Defined.

(** ** The model against the interpreter

    Values the Python interpreter gives for the same expressions. *)

(** [c_float(4.2).value == 4.199999809265137] *)
Example c_float_narrows : c_float 0x1.0cccccccccccdp+2 = 0x1.0cccccp+2%float.
Proof. reflexivity. Qed.

(** [c_float(1e39).value == inf] *)
Example c_float_overflows : c_float 0x1.78287f49c4a1dp+129 = infinity.
Proof. reflexivity. Qed.

Example c_uint_wraps : c_uint (-1) = 4294967295 /\ c_uint (2 ^ 32 + 3) = 3.
Proof. split; reflexivity. Qed.

Example c_int_wraps : c_int (2 ^ 31) = - 2 ^ 31 /\ c_int16 40000 = -25536.
Proof. split; reflexivity. Qed.

(** The three bytes E2 82 AC are the euro sign, U+20AC. *)
Example decode_euro : Utf8.decode [xe2; x82; xac; x41] = Some [0x20AC; 0x41].
Proof. reflexivity. Qed.

(** Over-long forms, surrogates, code points past 0x10FFFF and truncated
    sequences are refused. *)
Example decode_refuses :
  Utf8.decode [xc1; xbf] = None /\ Utf8.decode [xe0; x9f; xbf] = None /\
  Utf8.decode [xed; xa0; x80] = None /\ Utf8.decode [xf4; x90; x80; x80] = None /\
  Utf8.decode [xe2; x82] = None /\ Utf8.decode [x80] = None.
Proof. repeat split; reflexivity. Qed.

Example decode_limits :
  Utf8.decode [xed; x9f; xbf] = Some [0xD7FF] /\
  Utf8.decode [xf4; x8f; xbf; xbf] = Some [0x10FFFF] /\
  Utf8.decode [xf0; x90; x80; x80] = Some [0x10000].
Proof. repeat split; reflexivity. Qed.

(** ["\ud800".encode()] raises. *)
Example encode_refuses_surrogate : Utf8.encode [0xD800] = None.
Proof. reflexivity. Qed.

(** A field holding [b"abcd"] and assigned [b"ab"] holds [b"ab\x00d"]. *)
Example set_char_array_shorter :
  set_char_array 4 (list_byte_of_string "abcd") (list_byte_of_string "ab")
  = Ok [x61; x62; x00; x64].
Proof. reflexivity. Qed.

(** A value as long as the field is stored without a terminator. *)
Example set_char_array_exact :
  set_char_array 4 (zeros 4) (list_byte_of_string "abcd")
  = Ok (list_byte_of_string "abcd").
Proof. reflexivity. Qed.

Example set_char_array_longer :
  set_char_array 4 (zeros 4) (list_byte_of_string "abcde")
  = Raise (ValueError (literal "bytes too long (5, maximum length 4)")).
Proof. reflexivity. Qed.

(** ** Scenarios *)

(** [open_serial("COM3", 5)] then [set_cell_voltage(3, 4.2)] on a bench that
    answers 0: both succeed; the port is opened for unit 5 and the request
    names channel 3 and the voltage as a single-precision value. *)
Example scenario_serial_set_voltage :
  let session :=
    open_serial 64 scripted (literal "COM3") 5 ;;
    set_cell_voltage 64 scripted 3 0x1.0cccccccccccdp+2 in
  fst (session (new_client quiet)) = Ok tt /\
  trace (snd (session (new_client quiet))) =
  [{| function := "AbsScpiClient_SetCellVoltage";
      arguments := [Pointer 0; UInt 3; Float 0x1.0cccccp+2] |};
   {| function := "AbsScpiClient_OpenSerial";
      arguments := [Pointer 0; Chars (Some (list_byte_of_string "COM3"));
                    UInt 5] |}].
Proof. split; reflexivity. Qed.

(** The same request answered with -12 raises the error with the message
    the library gives for -12. *)
Example scenario_status_minus_12 :
  fst (set_cell_voltage 64 scripted 3 0x1.0cccccccccccdp+2 opened_on_failing)
  = Raise (ScpiClientError (literal "Timed out")).
Proof. reflexivity. Qed.

(** A device identifier past the C unsigned int range reaches the library
    reduced modulo 2^32. *)
Example scenario_wide_device_id :
  trace (snd (open_serial 64 scripted (literal "COM3") (2 ^ 32 + 5)
                (new_client quiet)))
  = [{| function := "AbsScpiClient_OpenSerial";
        arguments := [Pointer 0; Chars (Some (list_byte_of_string "COM3"));
                      UInt 5] |}].
Proof. reflexivity. Qed.

(** A query that fails can be made again on the same handle. *)
Example scenario_retry :
  let attempt := perform 64 scripted GetAllCellVoltageTargets in
  let st1 := snd (attempt opened_on_failing) in
  let st2 := snd (attempt st1) in
  handle st2 = 1 /\
  map arguments (filter (fun c => String.eqb (function c)
                                    "AbsScpiClient_GetAllCellVoltageTargets")
                   (trace st2))
  = [[Pointer 1; ByRef; UInt 8]; [Pointer 1; ByRef; UInt 8]].
Proof. split; reflexivity. Qed.

(** A 32-character address comes back 32 bytes wide: the field has no room
    for a terminator. *)
Example scenario_ip_fills_its_field :
  let ip := repeat 0x31 32 in
  exists conf,
    fst (set_ip_address 64 scripted ip (literal "255.255.255.0")
           (new_client quiet)) = Ok conf /\
    AbsEthernetConfig.get_ip_address conf = Ok ip /\
    byte_length ip = Some 32%nat.
Proof. eexists. repeat split; reflexivity. Qed.

(** * More of the module *)

(** ** Encoding, then decoding *)

Lemma val_byte_of (n : Z) : 0 <= n < 256 -> Utf8.val (Utf8.byte_of n) = n.
Proof.
  intros H. unfold Utf8.val, Utf8.byte_of.
  destruct (Byte.of_N (Z.to_N n)) as [b|] eqn:E.
  - apply Byte.to_of_N in E. rewrite E. lia.
  - apply Byte.of_N_None_iff in E. lia.
Qed.

Lemma cont_byte_of (n : Z) :
  0x80 <= n < 0xC0 -> Utf8.cont (Utf8.byte_of n) = true.
Proof.
  intros H. unfold Utf8.cont. rewrite val_byte_of by lia.
  apply andb_true_iff. rewrite Z.leb_le, Z.ltb_lt. lia.
Qed.

Lemma second_of_3_ok (n0 n1 : Z) :
  (n0 = 0xE0 -> 0xA0 <= n1) -> (n0 = 0xED -> n1 < 0xA0) ->
  Utf8.second_of_3 n0 n1 = true.
Proof.
  intros Hlo Hhi. unfold Utf8.second_of_3. apply andb_true_iff.
  destruct (Z.eqb_spec n0 0xE0), (Z.eqb_spec n0 0xED);
    rewrite ?Z.leb_le, ?Z.ltb_lt; auto.
Qed.

Lemma second_of_4_ok (n0 n1 : Z) :
  (n0 = 0xF0 -> 0x90 <= n1) -> (n0 = 0xF4 -> n1 < 0x90) ->
  Utf8.second_of_4 n0 n1 = true.
Proof.
  intros Hlo Hhi. unfold Utf8.second_of_4. apply andb_true_iff.
  destruct (Z.eqb_spec n0 0xF0), (Z.eqb_spec n0 0xF4);
    rewrite ?Z.leb_le, ?Z.ltb_lt; auto.
Qed.

Lemma ltb_false (a b : Z) : b <= a -> (a <? b) = false.
Proof. intros H. now apply Z.ltb_ge. Qed.

Lemma ltb_true (a b : Z) : a < b -> (a <? b) = true.
Proof. intros H. now apply Z.ltb_lt. Qed.

Lemma some_eq {A} (x y : A) : Some x = Some y -> x = y.
Proof. now intros [= ->]. Qed.

(** The bytes of one code point decode to that code point. *)
Lemma decode_point (c : Z) (b r : bytes) :
  Utf8.encode_point c = Some b ->
  Utf8.decode (b ++ r) = option_map (cons c) (Utf8.decode r).
Proof.
  unfold Utf8.encode_point.
  destruct (Z.ltb_spec c 0) as [|H0]; [discriminate|].
  destruct (Z.ltb_spec c 0x80) as [H1|H1].
  { intros <-%some_eq. cbn [app]. rewrite decode_cons. cbv zeta.
    rewrite val_byte_of by lia. now rewrite ltb_true by lia. }
  destruct (Z.ltb_spec c 0x800) as [H2|H2].
  { intros <-%some_eq. cbn [app]. rewrite decode_cons. cbv zeta.
    assert (2 <= c / 64 < 32 /\ 0 <= c mod 64 < 64 /\
            c = (c / 64) * 64 + c mod 64) as (Hq & Hr & Hc)
      by (Z.to_euclidean_division_equations; lia).
    rewrite !val_byte_of by lia.
    rewrite ltb_false, ltb_false, ltb_true, cont_byte_of by lia.
    do 2 f_equal. lia. }
  destruct (Z.ltb_spec c 0x10000) as [H3|H3].
  { destruct ((0xD800 <=? c) && (c <? 0xE000)) eqn:S; [discriminate|].
    assert (Hs : c < 0xD800 \/ 0xE000 <= c).
    { apply andb_false_iff in S as [S|S];
        [apply Z.leb_gt in S | apply Z.ltb_ge in S]; lia. }
    intros <-%some_eq. cbn [app]. rewrite decode_cons. cbv zeta.
    assert (0 <= c / 4096 < 16 /\ 0 <= (c / 64) mod 64 < 64 /\
            0 <= c mod 64 < 64 /\
            c = (c / 4096) * 4096 + ((c / 64) mod 64) * 64 + c mod 64)
      as (Hq & Hm & Hr & Hc)
      by (Z.to_euclidean_division_equations; lia).
    rewrite !val_byte_of by lia.
    rewrite ltb_false, ltb_false, ltb_false, ltb_true by lia.
    rewrite !cont_byte_of, second_of_3_ok by lia.
    cbn [andb]. do 2 f_equal. lia. }
  destruct (Z.ltb_spec c 0x110000) as [H4|H4]; [|discriminate].
  intros <-%some_eq. cbn [app]. rewrite decode_cons. cbv zeta.
  assert (0 <= c / 262144 < 5 /\ 0 <= (c / 4096) mod 64 < 64 /\
          0 <= (c / 64) mod 64 < 64 /\ 0 <= c mod 64 < 64 /\
          c = (c / 262144) * 262144 + ((c / 4096) mod 64) * 4096
              + ((c / 64) mod 64) * 64 + c mod 64)
    as (Hq & Hn & Hm & Hr & Hc)
    by (Z.to_euclidean_division_equations; lia).
  rewrite !val_byte_of by lia.
  rewrite ltb_false, ltb_false, ltb_false, ltb_false, ltb_true by lia.
  rewrite !cont_byte_of, second_of_4_ok by lia.
  cbn [andb]. do 2 f_equal. lia.
Qed.

Lemma encode_decode (s : str) (bs : bytes) :
  Utf8.encode s = Some bs -> Utf8.decode bs = Some s.
Proof.
  revert bs. induction s as [|c s IH]; intros bs; simpl.
  - now intros [= <-].
  - destruct (Utf8.encode_point c) as [b|] eqn:P; [|discriminate].
    destruct (Utf8.encode s) as [t|]; [|discriminate].
    intros [= <-]. rewrite (decode_point _ _ _ P), (IH t eq_refl).
    reflexivity.
Qed.

Lemma byte_of_nonzero (n : Z) : 0 < n < 256 -> Utf8.byte_of n <> x00.
Proof.
  intros H E. apply (f_equal Utf8.val) in E.
  rewrite val_byte_of in E by lia. change (Utf8.val x00) with 0 in E. lia.
Qed.

Lemma encode_point_no_nul (c : Z) (b : bytes) :
  c <> 0 -> Utf8.encode_point c = Some b -> ~ In x00 b.
Proof.
  intros Hc. unfold Utf8.encode_point.
  destruct (Z.ltb_spec c 0) as [|H0]; [discriminate|].
  pose proof byte_of_nonzero as N.
  destruct (Z.ltb_spec c 0x80) as [H1|H1].
  { intros <-%some_eq [E|[]]. apply N in E; [easy|lia]. }
  destruct (Z.ltb_spec c 0x800) as [H2|H2].
  { intros <-%some_eq [E|[E|[]]]; apply N in E; try easy;
      Z.to_euclidean_division_equations; lia. }
  destruct (Z.ltb_spec c 0x10000) as [H3|H3].
  { destruct ((0xD800 <=? c) && (c <? 0xE000)); [discriminate|].
    intros <-%some_eq [E|[E|[E|[]]]]; apply N in E; try easy;
      Z.to_euclidean_division_equations; lia. }
  destruct (Z.ltb_spec c 0x110000) as [H4|H4]; [|discriminate].
  intros <-%some_eq [E|[E|[E|[E|[]]]]]; apply N in E; try easy;
    Z.to_euclidean_division_equations; lia.
Qed.

(** A text without the character U+0000 encodes to bytes without NUL. *)
Lemma encode_no_nul (s : str) (bs : bytes) :
  ~ In 0 s -> Utf8.encode s = Some bs -> ~ In x00 bs.
Proof.
  revert bs. induction s as [|c s IH]; intros bs Hs; simpl.
  - now intros [= <-].
  - destruct (Utf8.encode_point c) as [b|] eqn:P; [|discriminate].
    destruct (Utf8.encode s) as [t|]; [|discriminate].
    intros [= <-] [Hin|Hin]%in_app_or.
    + apply (encode_point_no_nul c b); auto. intros ->. apply Hs. now left.
    + apply (IH t); auto. intros H. apply Hs. now right.
Qed.

(** ** Character fields *)

Lemma until_nul_no_nul (v : bytes) : ~ In x00 (until_nul v).
Proof.
  induction v as [|b r IH]; simpl; [tauto|].
  destruct (Byte.eqb b x00) eqn:E; simpl; [tauto|].
  intros [->|H]; [|tauto]. discriminate E.
Qed.

Lemma until_nul_app (data rest : bytes) :
  ~ In x00 data -> until_nul (data ++ x00 :: rest) = data.
Proof.
  induction data as [|b r IH]; simpl; [reflexivity|].
  intros Hn. destruct (Byte.eqb b x00) eqn:E.
  - apply Byte.byte_dec_bl in E. tauto.
  - rewrite IH; tauto.
Qed.

(** A value that fits is stored, the field keeps its width, and reading the
    field gives the value back, cut at its first NUL. *)
Lemma set_char_array_stores (width : nat) (old value : bytes) :
  List.length old = width ->
  (List.length (until_nul value) <= width)%nat ->
  exists field,
    set_char_array width old value = Ok field /\
    until_nul field = until_nul value /\
    List.length field = width.
Proof.
  intros Hold Hfit. unfold set_char_array.
  pose proof (until_nul_no_nul value) as Hn.
  destruct (Nat.ltb_spec (List.length (until_nul value)) width) as [L|L].
  - eexists. split; [reflexivity|]. split.
    + now apply until_nul_app.
    + rewrite length_app. cbn [List.length]. rewrite length_skipn. lia.
  - destruct (Nat.ltb_spec width (List.length (until_nul value))); [lia|].
    eexists. split; [reflexivity|].
    rewrite skipn_all2 by lia. rewrite app_nil_r.
    split; [now apply until_nul_full | lia].
Qed.

Lemma bytes_decode_faithful (field : bytes) :
  faithful_read field (bytes_decode (until_nul field)).
Proof.
  unfold faithful_read, bytes_decode, str_encode.
  destruct (Utf8.decode (until_nul field)) as [t|] eqn:D; split.
  - intros s [= <-]. now rewrite (decode_encode _ _ D).
  - discriminate.
  - discriminate.
  - now intros e [= <-].
Qed.

(** ** The structures' accessors *)

(** X1. Every accessor reads its field without loss: the text it returns
    encodes back to the field's bytes up to the first NUL, and it fails,
    with [UnicodeDecodeError], only on bytes that are no UTF-8. *)
Theorem accessors_read_faithfully :
  (forall info : AbsDeviceInfo.t,
      faithful_read (AbsDeviceInfo.part_number info)
        (AbsDeviceInfo.get_part_number info) /\
      faithful_read (AbsDeviceInfo.serial info)
        (AbsDeviceInfo.get_serial info) /\
      faithful_read (AbsDeviceInfo.version info)
        (AbsDeviceInfo.get_version info)) /\
  (forall conf : AbsEthernetConfig.t,
      faithful_read (AbsEthernetConfig.ip conf)
        (AbsEthernetConfig.get_ip_address conf) /\
      faithful_read (AbsEthernetConfig.netmask conf)
        (AbsEthernetConfig.get_netmask conf)) /\
  (forall found : AbsEthernetDiscoveryResult.t,
      faithful_read (AbsEthernetDiscoveryResult.ip found)
        (AbsEthernetDiscoveryResult.get_ip_address found) /\
      faithful_read (AbsEthernetDiscoveryResult.serial found)
        (AbsEthernetDiscoveryResult.get_serial found)).
Proof.
  repeat apply conj; intros; repeat apply conj; apply bytes_decode_faithful.
Qed.

(** ** Construction *)


(** X3. Only the loader of the platform is consulted: [windll] on Windows,
    [cdll] anywhere else.  Two hosts that agree on the platform, on the
    lookup and on that loader construct the same client. *)
Theorem init_uses_platform_loader {W} (env env' : host W) (lib : str) :
  system env = system env' ->
  (forall l, find_library env l = find_library env' l) ->
  (system env = "Windows"%string ->
   forall p, windll_LoadLibrary env p = windll_LoadLibrary env' p) ->
  (system env <> "Windows"%string ->
   forall p, cdll_LoadLibrary env p = cdll_LoadLibrary env' p) ->
  __init__ env lib = __init__ env' lib.
Proof.
  intros Hs Hf Hw Hc. unfold __init__, load_library_func. cbv zeta.
  rewrite <- Hf, <- Hs.
  destruct (find_library env lib) as [[|c p]|]; try reflexivity.
  destruct (String.eqb_spec (system env) "Windows") as [E|E].
  - now rewrite (Hw E).
  - now rewrite (Hc E).
Qed.

(** ** The session *)

Section Session.

Context {W : Type}.
Variable long_bits : Z.
Variable dll : Dll W.

#[local] Hint Resolve check_err_keeps_handle : frame.

Lemma check_err_trace_cases err (st : state W) :
  trace (snd (__check_err long_bits dll err st)) = trace st \/
  exists code,
    trace (snd (__check_err long_bits dll err st)) = lookup_call code :: trace st.
Proof.
  destruct (Z.lt_ge_cases err 0) as [Hn|Hp].
  - rewrite check_err_negative by exact Hn. unfold err_msg.
    destruct (int_argument long_bits err) as [code|]; [|now left].
    right. exists code. unfold bind. rewrite foreign_run.
    destruct (fst (AbsScpiClient_ErrorMessage dll code (world st)))
      as [mem|]; [|reflexivity].
    unfold lift. now destruct (bytes_decode (until_nul mem)).
  - rewrite check_err_ok by exact Hp. now left.
Qed.

(** A code that came back from the library is looked up in the library: the
    lookup fails only on what the library answers. *)
Lemma check_err_library_code raw (st : state W) e st' :
  32 <= long_bits ->
  __check_err long_bits dll (c_int raw) st = (Raise e, st') ->
  from_library e.
Proof.
  intros Hl H. unfold from_library.
  destruct (Z.lt_ge_cases (c_int raw) 0) as [Hn|Hp].
  - rewrite check_err_negative in H by exact Hn. revert H.
    unfold err_msg. rewrite int_argument_c_int by exact Hl.
    unfold bind. rewrite foreign_run.
    destruct (fst _) as [mem|]; [|intros [= <- _]; auto].
    unfold lift, bytes_decode.
    destruct (Utf8.decode _); intros [= <- _]; eauto.
  - rewrite check_err_ok in H by exact Hp. discriminate H.
Qed.

(** X4. [init] returns normally exactly when the library's code is not
    negative, and in both cases the client holds the handle the library
    wrote. *)
Theorem init_outcome (st : state W) :
  let reply := fst (AbsScpiClient_Init dll (handle st) (world st)) in
  let out := init long_bits dll st in
  (is_ok (fst out) = true <-> 0 <= c_int (fst reply)) /\
  handle (snd out) = snd reply.
Proof.
  cbv zeta. unfold init, bind, get_handle. rewrite foreign_run.
  cbn [fst snd]. destruct (fst (AbsScpiClient_Init _ _ _)) as [res h'].
  unfold set_handle. cbn [fst snd]. split.
  - apply check_err_is_ok.
  - now rewrite check_err_keeps_handle.
Qed.

(** X5. [cleanup] never raises: the code [AbsScpiClient_Destroy] returns is
    dropped, negative or not, and the client holds the handle that call
    left. *)
Theorem cleanup_never_raises (st : state W) :
  let reply := fst (AbsScpiClient_Destroy dll (handle st) (world st)) in
  fst (cleanup dll st) = Ok tt /\
  handle (snd (cleanup dll st)) = snd reply /\
  world (snd (cleanup dll st))
  = snd (AbsScpiClient_Destroy dll (handle st) (world st)).
Proof.
  cbv zeta. unfold cleanup, bind, get_handle. rewrite foreign_run.
  cbn [fst snd]. now destruct (fst (AbsScpiClient_Destroy _ _ _)) as [res h'].
Qed.

(** X6. When [init] fails, a [with] block raises what [init] raised: its body
    does not run and [AbsScpiClient_Destroy] is not called. *)
Theorem failed_init_skips_body_and_cleanup (body : M W unit) (st : state W) :
  c_int (fst (fst (AbsScpiClient_Init dll (handle st) (world st)))) < 0 ->
  with_block long_bits dll body st = __enter__ long_bits dll st /\
  is_ok (fst (with_block long_bits dll body st)) = false /\
  (~ In destroy_call (trace st) ->
   ~ In destroy_call (trace (snd (with_block long_bits dll body st)))).
Proof.
  intros Hneg.
  assert (Hinit : exists e st1,
             __enter__ long_bits dll st = (Raise e, st1) /\
             (~ In destroy_call (trace st) -> ~ In destroy_call (trace st1))).
  { unfold __enter__, init, bind, get_handle. rewrite foreign_run.
    cbn [fst snd]. revert Hneg.
    destruct (fst (AbsScpiClient_Init _ _ _)) as [res h']. cbn [fst].
    intros Hneg. unfold set_handle.
    set (st0 := {| handle := h' |}).
    destruct (check_err_trace_cases (c_int res) st0) as [T|[code T]];
      pose proof (proj1 (check_err_is_ok long_bits dll (c_int res) st0)) as K;
      destruct (__check_err long_bits dll (c_int res) st0) as [[[]|e] st1];
      try (specialize (K eq_refl); lia);
      exists e, st1; (split; [reflexivity|]);
      cbn [snd] in T; rewrite T; subst st0; cbn [trace];
      intros Hno Hin; unfold destroy_call, lookup_call in *;
      cbn [In] in Hin; intuition discriminate. }
  destruct Hinit as (e & st1 & He & Hno).
  unfold with_block. rewrite He. cbn [fst snd]. auto.
Qed.

(** X7. Opening a transport and discovery leave [self.__handle] alone, whatever
    their outcome: only [init] and [cleanup] assign it. *)
Theorem opening_keeps_handle :
  (forall target_ip interface_ip,
      keeps_handle (open_udp long_bits dll target_ip interface_ip)) /\
  (forall port device_id,
      keeps_handle (open_serial long_bits dll port device_id)) /\
  (forall interface_ip,
      keeps_handle (multicast_discovery long_bits dll interface_ip)).
Proof.
  repeat apply conj; intros;
    unfold open_udp, open_serial, multicast_discovery; auto 40 with frame.
Qed.

(** X8. [open_udp] passes the encoded target and, for the interface, NULL when
    none is given or when it is the empty string, and its encoding
    otherwise; it returns normally exactly when the library's code is not
    negative. *)
Theorem open_udp_marshals (target_ip : str) (interface_ip : option str)
    (t : bytes) (st : state W) :
  str_encode target_ip = Ok t ->
  let out := open_udp long_bits dll target_ip interface_ip st in
  let sent i :=
    (exists rest,
        trace (snd out) =
        rest ++ {| function := "AbsScpiClient_OpenUdp";
                   arguments := [Pointer (handle st); Chars (Some t);
                                 Chars i] |} :: trace st) /\
    (is_ok (fst out) = true <->
     0 <= c_int (fst (AbsScpiClient_OpenUdp dll (handle st) t i (world st)))) in
  (interface_ip = None \/ interface_ip = Some [] -> sent None) /\
  (forall s b, interface_ip = Some s -> s <> [] -> str_encode s = Ok b ->
               sent (Some b)).
Proof.
  intros Ht. cbv zeta.
  assert (R : forall i (k : M W (option bytes)),
             (forall st0 : state W, k st0 = (Ok i, st0)) ->
             let out := (h <- get_handle ;;
                         t <- lift (str_encode target_ip) ;;
                         i <- k ;;
                         res <- foreign "AbsScpiClient_OpenUdp"
                                  [Pointer h; Chars (Some t); Chars i]
                                  (AbsScpiClient_OpenUdp dll h t i) ;;
                         __check_err long_bits dll (c_int res)) st in
             (exists rest,
                 trace (snd out) =
                 rest ++ {| function := "AbsScpiClient_OpenUdp";
                            arguments := [Pointer (handle st); Chars (Some t);
                                          Chars i] |} :: trace st) /\
             (is_ok (fst out) = true <->
              0 <= c_int (fst (AbsScpiClient_OpenUdp dll (handle st) t i
                                 (world st))))).
  { intros i k Hk. cbv zeta. unfold bind, get_handle, lift.
    rewrite Ht, Hk, foreign_run. cbn [fst snd].
    set (st1 := {| handle := _ |}).
    split; [apply (check_err_trace _ _ _ st1) | apply check_err_is_ok]. }
  unfold open_udp. split.
  - intros [-> | ->]; apply (R None (ret None)); reflexivity.
  - intros s b -> Hs Hb. destruct s as [|c s]; [congruence|].
    apply (R (Some b)). intros st0. unfold bind, lift, ret. now rewrite Hb.
Qed.

(** X9. Two device identifiers that are not negative and agree modulo 2^32 are
    the same request to [open_serial]. *)
Theorem open_serial_wraps (port : str) (a b : Z) (st : state W) :
  0 <= a -> 0 <= b -> a mod 2 ^ 32 = b mod 2 ^ 32 ->
  open_serial long_bits dll port a st = open_serial long_bits dll port b st.
Proof.
  intros Ha Hb Hab. unfold open_serial.
  destruct (Z.ltb_spec a 0); [lia|]. destruct (Z.ltb_spec b 0); [lia|].
  unfold c_uint. now rewrite Hab.
Qed.

(** X10. Two channel indices that agree modulo 2^32, negative ones included, are
    the same request to [set_cell_voltage] and to
    [get_cell_voltage_target]. *)
Theorem channel_index_wraps (a b : Z) (st : state W) :
  a mod 2 ^ 32 = b mod 2 ^ 32 ->
  (forall voltage,
      set_cell_voltage long_bits dll a voltage st
      = set_cell_voltage long_bits dll b voltage st) /\
  get_cell_voltage_target long_bits dll a st
  = get_cell_voltage_target long_bits dll b st.
Proof.
  intros Hab. unfold set_cell_voltage, get_cell_voltage_target, c_uint.
  rewrite Hab. now split.
Qed.

(** X11. An address or a mask whose encoding, cut at its first NUL, is longer
    than the 32 bytes of its field is refused with [ValueError]; the state
    is untouched and the library is not called. *)
Theorem set_ip_address_refuses_long (ip netmask : str) (i : bytes)
    (st : state W) :
  str_encode ip = Ok i ->
  ((32 < List.length (until_nul i))%nat ->
   exists msg,
     set_ip_address long_bits dll ip netmask st = (Raise (ValueError msg), st))
  /\
  (forall n,
      (List.length (until_nul i) <= 32)%nat ->
      str_encode netmask = Ok n ->
      (32 < List.length (until_nul n))%nat ->
      exists msg,
        set_ip_address long_bits dll ip netmask st
        = (Raise (ValueError msg), st)).
Proof.
  intros Hi. unfold set_ip_address. cbv zeta. unfold bind, lift. rewrite Hi.
  split.
  - intros Hlong. unfold set_char_array.
    destruct (Nat.ltb_spec (List.length (until_nul i)) 32); [lia|].
    destruct (Nat.ltb_spec 32 (List.length (until_nul i))); [|lia].
    eexists. reflexivity.
  - intros n Hfit Hn Hlong.
    destruct (set_char_array_stores 32 (AbsEthernetConfig.ip
                AbsEthernetConfig.new) i eq_refl Hfit) as (f & -> & _).
    rewrite Hn. unfold set_char_array.
    destruct (Nat.ltb_spec (List.length (until_nul n)) 32); [lia|].
    destruct (Nat.ltb_spec 32 (List.length (until_nul n))); [|lia].
    eexists. reflexivity.
Qed.

(** X12. An address and a mask without the character U+0000 and of at most 32
    bytes each reach the library in a configuration that reads back as
    exactly those two texts; the method returns normally exactly when the
    library's code is not negative. *)
Theorem set_ip_address_hands_over (ip netmask : str) (i n : bytes)
    (st : state W) :
  str_encode ip = Ok i -> str_encode netmask = Ok n ->
  ~ In 0 ip -> ~ In 0 netmask ->
  (List.length i <= 32)%nat -> (List.length n <= 32)%nat ->
  exists conf,
    AbsEthernetConfig.get_ip_address conf = Ok ip /\
    AbsEthernetConfig.get_netmask conf = Ok netmask /\
    let out := set_ip_address long_bits dll ip netmask st in
    (exists rest,
        trace (snd out) =
        rest ++ {| function := "AbsScpiClient_SetIPAddress";
                   arguments := [Pointer (handle st); ByRef] |} :: trace st) /\
    (is_ok (fst out) = true <->
     0 <= c_int (fst (fst (AbsScpiClient_SetIPAddress dll (handle st) conf
                             (world st))))).
Proof.
  intros Hi Hn Zi Zn Li Ln.
  assert (Ni : until_nul i = i).
  { apply until_nul_full. unfold str_encode in Hi.
    destruct (Utf8.encode ip) as [x|] eqn:E; [|discriminate].
    injection Hi as <-. now apply (encode_no_nul ip). }
  assert (Nn : until_nul n = n).
  { apply until_nul_full. unfold str_encode in Hn.
    destruct (Utf8.encode netmask) as [x|] eqn:E; [|discriminate].
    injection Hn as <-. now apply (encode_no_nul netmask). }
  assert (Di : bytes_decode i = Ok ip).
  { unfold str_encode in Hi. unfold bytes_decode.
    destruct (Utf8.encode ip) as [x|] eqn:E; [|discriminate].
    injection Hi as <-. now rewrite (encode_decode _ _ E). }
  assert (Dn : bytes_decode n = Ok netmask).
  { unfold str_encode in Hn. unfold bytes_decode.
    destruct (Utf8.encode netmask) as [x|] eqn:E; [|discriminate].
    injection Hn as <-. now rewrite (encode_decode _ _ E). }
  destruct (set_char_array_stores 32 (AbsEthernetConfig.ip
              AbsEthernetConfig.new) i eq_refl) as (fi & Si & Ri & _);
    [rewrite Ni; exact Li|].
  destruct (set_char_array_stores 32 (AbsEthernetConfig.netmask
              AbsEthernetConfig.new) n eq_refl) as (fn & Sn & Rn & _);
    [rewrite Nn; exact Ln|].
  exists {| AbsEthernetConfig.ip := fi; AbsEthernetConfig.netmask := fn |}.
  split.
  { unfold AbsEthernetConfig.get_ip_address. cbn. now rewrite Ri, Ni. }
  split.
  { unfold AbsEthernetConfig.get_netmask. cbn. now rewrite Rn, Nn. }
  cbv zeta. unfold set_ip_address. cbv zeta. unfold bind, lift, get_handle.
  rewrite Hi, Si, Hn, Sn, foreign_run. cbn [fst snd].
  destruct (fst (AbsScpiClient_SetIPAddress _ _ _ _)) as [res raw].
  cbn [fst snd]. set (st1 := {| handle := _ |}).
  pose proof (check_err_trace long_bits dll (c_int res) st1) as [rest T].
  pose proof (check_err_is_ok long_bits dll (c_int res) st1) as K.
  destruct (__check_err long_bits dll (c_int res) st1) as [[[]|e] st2];
    cbn [fst snd] in *; split; eauto.
Qed.

(** X13. [get_all_cell_voltage_targets] returns normally exactly when the
    library's code is not negative, and then returns eight values, however
    many the library wrote. *)
Theorem get_all_cell_voltage_targets_outcome (st : state W) :
  let out := get_all_cell_voltage_targets long_bits dll st in
  let res :=
    fst (fst (AbsScpiClient_GetAllCellVoltageTargets dll (handle st)
                (repeat (c_float zero) 8) (c_uint 8) (world st))) in
  (is_ok (fst out) = true <-> 0 <= c_int res) /\
  (forall l, fst out = Ok l -> List.length l = 8%nat).
Proof.
  cbv zeta. unfold get_all_cell_voltage_targets. cbv zeta.
  unfold bind, get_handle. rewrite foreign_run. cbn [fst snd].
  destruct (fst (AbsScpiClient_GetAllCellVoltageTargets _ _ _ _ _))
    as [res raw]. cbn [fst snd].
  set (st1 := {| handle := _ |}).
  pose proof (check_err_is_ok long_bits dll (c_int res) st1) as K.
  destruct (__check_err long_bits dll (c_int res) st1) as [[[]|e] st2];
    cbn [fst snd] in *; split; try exact K.
  - intros l [= <-]. now rewrite length_map, fit_length.
  - discriminate.
Qed.

(** X14. The code that [get_next_error] returns was read through a [c_int16]
    and the count that [get_error_count] returns through a [c_int]: each
    lies in the range of its type whatever the library wrote. *)
Theorem error_queue_values_in_range (st : state W) :
  (forall code msg st',
      get_next_error long_bits dll st = (Ok (code, msg), st') ->
      - 2 ^ 15 <= code < 2 ^ 15) /\
  (forall count st',
      get_error_count long_bits dll st = (Ok count, st') ->
      - 2 ^ 31 <= count < 2 ^ 31).
Proof.
  split.
  - intros code msg st'. unfold get_next_error. cbv zeta.
    unfold bind, get_handle, lift, ret. rewrite foreign_run. cbn [fst snd].
    destruct (fst (AbsScpiClient_GetNextError _ _ _ _ _ _))
      as [res [raw_code raw]].
    destruct (__check_err _ _ _ _) as [[[]|e] st1]; [|discriminate].
    destruct (bytes_decode _) as [t|e]; [|discriminate].
    intros [= <- _ _]. unfold c_int16.
    pose proof (Z.mod_pos_bound (raw_code + 2 ^ 15) (2 ^ 16)). lia.
  - intros count st'. unfold get_error_count. cbv zeta.
    unfold bind, get_handle, ret. rewrite foreign_run. cbn [fst snd].
    destruct (fst (AbsScpiClient_GetErrorCount _ _ _ _)) as [res raw].
    destruct (__check_err _ _ _ _) as [[[]|e] st1]; [|discriminate].
    intros [= <- _]. apply c_int_range.
Qed.

(** X15. The list [multicast_discovery] returns has as many entries as the
    count the library wrote, read as a C unsigned int, and never more than
    the 32 the array holds. *)
Theorem multicast_discovery_count (interface_ip : str) (i : bytes)
    (st : state W) found st' :
  str_encode interface_ip = Ok i ->
  multicast_discovery long_bits dll interface_ip st = (Ok found, st') ->
  let count :=
    snd (snd (fst (AbsScpiClient_MulticastDiscovery dll i
                     (repeat AbsEthernetDiscoveryResult.new 32) (c_uint 32)
                     (world st)))) in
  Z.of_nat (List.length found) = Z.min (count mod 2 ^ 32) 32.
Proof.
  intros Hi. unfold multicast_discovery. cbv zeta. unfold bind, lift.
  rewrite Hi, foreign_run. cbn [fst snd].
  change (c_uint (Z.of_nat (List.length
            (repeat AbsEthernetDiscoveryResult.new 32)))) with (c_uint 32).
  destruct (fst (AbsScpiClient_MulticastDiscovery _ _ _ _ _))
    as [res [raw n]]. cbn [fst snd].
  destruct (__check_err _ _ _ _) as [[[]|e] st1]; [|discriminate].
  intros [= <- _]. rewrite length_firstn, fit_length.
  pose proof (c_uint_range n). unfold c_uint in *. lia.
Qed.

Lemma bytes_decode_raises (b : bytes) e :
  bytes_decode b = Raise e -> from_library e.
Proof.
  unfold bytes_decode, from_library.
  destruct (Utf8.decode b); [discriminate|]. intros [= <-]. auto.
Qed.

Lemma str_encode_raises (s : str) e :
  str_encode s = Raise e -> from_arguments e.
Proof.
  unfold str_encode, from_arguments.
  destruct (Utf8.encode s); [discriminate|]. intros [= <-]. auto.
Qed.

Lemma set_char_array_raises width old value e :
  set_char_array width old value = Raise e -> from_arguments e.
Proof.
  unfold set_char_array, from_arguments.
  destruct (_ <? _)%nat; [discriminate|].
  destruct (_ <? _)%nat; [|discriminate]. intros [= <-]. eauto.
Qed.

(** X16. What a query or command can raise, when it is called with
    arguments of the types it declares. After its library function was
    called: the [ScpiClientError] of a negative code, or the failure to
    read a text the library gave ([AttributeError] on a NULL message,
    [UnicodeDecodeError]). Before it, and only in [set_ip_address]: the
    failure to marshal an argument, which leaves the state untouched.
    Nothing else, where a C long has at least 32 bits. *)
Theorem perform_raises_only (op : operation) (st : state W) e st' :
  32 <= long_bits ->
  perform long_bits dll op st = (Raise e, st') ->
  (from_library e /\
   exists rest args,
     trace st' =
     rest ++ {| function := function_of op; arguments := args |} :: trace st)
  \/
  (from_arguments e /\ st' = st /\
   exists ip netmask, op = SetIpAddress ip netmask).
Proof.
  intros Hl.
  assert (C : forall raw (s1 : state W) e1 s2,
             __check_err long_bits dll (c_int raw) s1 = (Raise e1, s2) ->
             from_library e1)
    by (intros; eapply check_err_library_code; eauto).
  destruct op; unfold perform;
    unfold get_device_info, get_device_id, get_ip_address, set_ip_address,
      get_calibration_date, get_error_count, get_next_error, clear_errors,
      set_cell_voltage, set_all_cell_voltages, get_cell_voltage_target,
      get_all_cell_voltage_targets;
    cbv zeta; unfold bind, get_handle, lift, ret; cbn [function_of].
  4: { destruct (str_encode ip) as [i|e0] eqn:Ei;
         [|intros [= <- <-]; right; repeat split; eauto using str_encode_raises].
       destruct (set_char_array 32 _ i) as [fi|e0] eqn:Si;
         [|intros [= <- <-]; right; repeat split;
           eauto using set_char_array_raises].
       destruct (str_encode netmask) as [n|e0] eqn:En;
         [|intros [= <- <-]; right; repeat split; eauto using str_encode_raises].
       destruct (set_char_array 32 _ n) as [fn|e0] eqn:Sn;
         [|intros [= <- <-]; right; repeat split;
           eauto using set_char_array_raises].
       rewrite foreign_run. cbn [fst snd].
       destruct (fst (AbsScpiClient_SetIPAddress _ _ _ _)) as [res raw].
       match goal with
       | |- context [__check_err ?a ?b ?c ?d] =>
           generalize (check_err_trace a b c d);
           destruct (__check_err a b c d) as [[[]|e0] s2] eqn:K
       end; cbn [fst snd trace]; intros [rest T]; [discriminate|].
       intros [= <- <-]. left. split; [eapply C; eauto | eauto]. }
  all: rewrite foreign_run; cbn [fst snd].
  all: repeat match goal with
         | |- context [fst (?f (world ?s))] =>
             match type of (fst (f (world s))) with
             | (_ * _)%type => destruct (fst (f (world s))) as [res raw]
             end
         | raw : (_ * _)%type |- _ => destruct raw
         end.
  all: match goal with
       | |- context [__check_err ?a ?b ?c ?d] =>
           generalize (check_err_trace a b c d);
           destruct (__check_err a b c d) as [[[]|e0] s2] eqn:K
       end; cbn [fst snd trace]; intros [rest T].
  all: try (intros [= <- <-]; left; split; [eapply C; eauto | eauto]).
  all: try discriminate.
  all: destruct (bytes_decode _) as [t|e0] eqn:D; try discriminate.
  all: intros [= <- <-]; left;
    split; [eapply bytes_decode_raises; eauto | eauto].
Qed.

(** X17. One attempt per call: a query or command calls its own library function
    at most once, and the only other call it can make is one message
    lookup, after that call. It never retries. *)
Theorem perform_single_attempt (op : operation) (st : state W) :
  let after := trace (snd (perform long_bits dll op st)) in
  after = trace st \/
  (exists args,
      after = {| function := function_of op; arguments := args |} :: trace st)
  \/
  (exists args code,
      after = lookup_call code
              :: {| function := function_of op; arguments := args |}
              :: trace st).
Proof.
  cbv zeta.
  destruct op; unfold perform;
    unfold get_device_info, get_device_id, get_ip_address, set_ip_address,
      get_calibration_date, get_error_count, get_next_error, clear_errors,
      set_cell_voltage, set_all_cell_voltages, get_cell_voltage_target,
      get_all_cell_voltage_targets;
    cbv zeta; unfold bind, get_handle, lift, ret; cbn [function_of].
  4: { destruct (str_encode ip) as [i|e0]; [|now left].
       destruct (set_char_array 32 _ i) as [fi|e0]; [|now left].
       destruct (str_encode netmask) as [n|e0]; [|now left].
       destruct (set_char_array 32 _ n) as [fn|e0]; [|now left]. revert fi fn.
       intros fi fn. rewrite foreign_run. cbn [fst snd].
       destruct (fst (AbsScpiClient_SetIPAddress _ _ _ _)) as [res raw].
       set (s1 := {| handle := _ |}).
       destruct (check_err_trace_cases (c_int res) s1) as [T|[code T]];
         destruct (__check_err long_bits dll (c_int res) s1) as [[[]|e0] s2];
         cbn [fst snd] in *; rewrite T; subst s1; cbn [trace]; eauto. }
  all: rewrite foreign_run; cbn [fst snd].
  all: repeat match goal with
         | |- context [fst (?f (world ?s))] =>
             match type of (fst (f (world s))) with
             | (_ * _)%type => destruct (fst (f (world s))) as [res raw]
             end
         | raw : (_ * _)%type |- _ => destruct raw
         end.
  all: match goal with
       | |- context [__check_err ?a ?b ?c ?d] =>
           destruct (check_err_trace_cases c d) as [T|[code T]];
           destruct (__check_err a b c d) as [[[]|e0] s2]
       end.
  all: cbn [fst snd] in *.
  all: try (destruct (bytes_decode _) as [t|e1]; cbn [fst snd]).
  all: rewrite T; cbn [trace]; eauto.
Qed.

(** X18. Discovery does not go through the session: it never reads
    [self.__handle], so it gives the same result, log and world on a client
    that was never initialised or opened as on any other, and leaves the
    handle it found. *)
Theorem discovery_ignores_handle (interface_ip : str) (st : state W) (h : Z) :
  let st_h := {| handle := h; world := world st; trace := trace st |} in
  let out := multicast_discovery long_bits dll interface_ip st in
  let out_h := multicast_discovery long_bits dll interface_ip st_h in
  fst out_h = fst out /\ world (snd out_h) = world (snd out) /\
  trace (snd out_h) = trace (snd out) /\ handle (snd out_h) = h.
Proof.
  cbv zeta.
  assert (C : forall err (s1 s2 : state W),
             world s1 = world s2 -> trace s1 = trace s2 ->
             fst (__check_err long_bits dll err s1)
             = fst (__check_err long_bits dll err s2) /\
             world (snd (__check_err long_bits dll err s1))
             = world (snd (__check_err long_bits dll err s2)) /\
             trace (snd (__check_err long_bits dll err s1))
             = trace (snd (__check_err long_bits dll err s2))).
  { intros err s1 s2 Hw Ht. unfold __check_err.
    destruct (err <? 0); [|now cbn].
    unfold bind, err_msg.
    destruct (int_argument long_bits err) as [code|]; [|now cbn].
    unfold bind. rewrite !foreign_run, Hw, Ht.
    destruct (fst (AbsScpiClient_ErrorMessage dll code (world s2)))
      as [mem|]; [|now cbn].
    unfold lift. now destruct (bytes_decode (until_nul mem)). }
  assert (K : keeps_handle (multicast_discovery long_bits dll interface_ip))
    by (unfold multicast_discovery; auto 40 with frame).
  split; [|split; [|split; [|now rewrite K]]].
  all: unfold multicast_discovery; cbv zeta; unfold bind, lift;
    destruct (str_encode interface_ip) as [i|e]; [|reflexivity];
    rewrite !foreign_run; cbn [fst snd world trace handle];
    destruct (fst (AbsScpiClient_MulticastDiscovery _ _ _ _ _))
      as [res [raw n]].
  all: set (a := {| handle := h |}); set (b := {| handle := handle st |}).
  all: generalize (C (c_int res) a b eq_refl eq_refl).
  all: destruct (__check_err long_bits dll (c_int res) a) as [[[]|e1] t1];
    destruct (__check_err long_bits dll (c_int res) b) as [[[]|e2] t2];
    unfold ret; cbn [fst snd]; intros (R1 & R2 & R3); congruence.
Qed.

End Session.

(** ** More runs on concrete inputs *)


(** X3: On Linux a [windll] loader makes no difference. *)
Lemma init_uses_platform_loader_witness :
  __init__ linux_host LIB_NAME = __init__ linux_host_with_windll LIB_NAME /\
  is_ok (__init__ linux_host LIB_NAME) = true.
Proof.
  split; [|reflexivity].
  apply init_uses_platform_loader.
  - reflexivity.
  - intros l. reflexivity.
  - intros E. discriminate E.
  - intros _ p. reflexivity.
Defined.

(** X6: On the failing bench a block is left before its body. *)
Lemma failed_init_skips_body_and_cleanup_witness :
  let body := set_cell_voltage 64 scripted 3 4.5 in
  with_block 64 scripted body (new_client failing)
  = __enter__ 64 scripted (new_client failing) /\
  is_ok (fst (with_block 64 scripted body (new_client failing))) = false /\
  ~ In destroy_call
      (trace (snd (with_block 64 scripted body (new_client failing)))).
Proof.
  cbv zeta.
  destruct (failed_init_skips_body_and_cleanup 64 scripted
              (set_cell_voltage 64 scripted 3 4.5) (new_client failing))
    as (H1 & H2 & H3); [reflexivity|].
  split; [exact H1|]. split; [exact H2|]. apply H3. intros [].
Defined.

(** X8: An empty interface string is sent as NULL. *)
Lemma open_udp_marshals_witness :
  exists rest,
    trace (snd (open_udp 64 scripted (literal "10.0.0.5") (Some [])
                  (new_client quiet)))
    = rest ++ [{| function := "AbsScpiClient_OpenUdp";
                  arguments := [Pointer 0;
                                Chars (Some (list_byte_of_string "10.0.0.5"));
                                Chars None] |}].
Proof.
  destruct (open_udp_marshals 64 scripted (literal "10.0.0.5") (Some [])
              (list_byte_of_string "10.0.0.5") (new_client quiet) eq_refl)
    as [Hnone _].
  destruct (Hnone (or_intror eq_refl)) as [Hsent _]. exact Hsent.
Defined.

(** X9: Unit 5 and identifier 2^32 + 5 are one request. *)
Lemma open_serial_wraps_witness :
  open_serial 64 scripted (literal "COM3") 5 (new_client quiet)
  = open_serial 64 scripted (literal "COM3") (2 ^ 32 + 5) (new_client quiet).
Proof.
  apply open_serial_wraps; [lia | lia | reflexivity].
Defined.

(** X10: Channel -1 and channel 2^32 - 1 are one request. *)
Lemma channel_index_wraps_witness :
  set_cell_voltage 64 scripted (-1) 4.5 (new_client quiet)
  = set_cell_voltage 64 scripted (2 ^ 32 - 1) 4.5 (new_client quiet).
Proof.
  apply (channel_index_wraps 64 scripted (-1) (2 ^ 32 - 1) (new_client quiet)).
  reflexivity.
Defined.

(** X11: An address of 33 characters is refused. *)
Lemma set_ip_address_refuses_long_witness :
  exists msg,
    set_ip_address 64 scripted (repeat 0x31 33) (literal "255.255.255.0")
      (new_client quiet)
    = (Raise (ValueError msg), new_client quiet).
Proof.
  apply (proj1 (set_ip_address_refuses_long 64 scripted (repeat 0x31 33)
                  (literal "255.255.255.0") (repeat x31 33) (new_client quiet)
                  eq_refl)).
  vm_compute. lia.
Defined.

(** X12: An address and a mask reach the library as they were given. *)
Lemma set_ip_address_hands_over_witness :
  exists conf,
    AbsEthernetConfig.get_ip_address conf = Ok (literal "10.0.0.5") /\
    AbsEthernetConfig.get_netmask conf = Ok (literal "255.255.255.0") /\
    is_ok (fst (set_ip_address 64 scripted (literal "10.0.0.5")
                  (literal "255.255.255.0") (new_client quiet))) = true.
Proof.
  destruct (set_ip_address_hands_over 64 scripted (literal "10.0.0.5")
              (literal "255.255.255.0") (list_byte_of_string "10.0.0.5")
              (list_byte_of_string "255.255.255.0") (new_client quiet))
    as (conf & Hip & Hmask & _ & Hok).
  - reflexivity.
  - reflexivity.
  - vm_compute. intuition discriminate.
  - vm_compute. intuition discriminate.
  - vm_compute. lia.
  - vm_compute. lia.
  - exists conf. split; [exact Hip|]. split; [exact Hmask|]. reflexivity.
Defined.

(** X13: On the quiet bench eight targets come back. *)
Lemma get_all_cell_voltage_targets_outcome_witness :
  exists l,
    fst (get_all_cell_voltage_targets 64 scripted (new_client quiet)) = Ok l /\
    List.length l = 8%nat.
Proof.
  eexists. split; [reflexivity|].
  apply (proj2 (get_all_cell_voltage_targets_outcome 64 scripted
                  (new_client quiet))).
  reflexivity.
Defined.

(** X14: On the quiet bench the queue is empty and its values are in range. *)
Lemma error_queue_values_in_range_witness :
  fst (get_error_count 64 scripted (new_client quiet)) = Ok 0 /\
  - 2 ^ 31 <= 0 < 2 ^ 31.
Proof.
  split; [reflexivity|].
  apply (proj2 (error_queue_values_in_range 64 scripted (new_client quiet)) 0
           (snd (get_error_count 64 scripted (new_client quiet)))).
  reflexivity.
Defined.

(** X15: Forty answers, thirty-two entries. *)
Lemma multicast_discovery_count_witness :
  exists found,
    fst (multicast_discovery 64 scripted (literal "10.0.0.1")
           (new_client crowded)) = Ok found /\
    Z.of_nat (List.length found) = Z.min (40 mod 2 ^ 32) 32.
Proof.
  eexists. split; [reflexivity|].
  apply (multicast_discovery_count 64 scripted (literal "10.0.0.1")
           (list_byte_of_string "10.0.0.1") (new_client crowded) _
           (snd (multicast_discovery 64 scripted (literal "10.0.0.1")
                   (new_client crowded))));
    reflexivity.
Defined.

(** X16: On the failing bench a query raises the error of the negative code,
    after its call. *)
Lemma perform_raises_only_witness :
  fst (perform 64 scripted GetErrorCount opened_on_failing)
  = Raise (ScpiClientError (literal "Timed out")) /\
  from_library (ScpiClientError (literal "Timed out")) /\
  exists rest args,
    trace (snd (perform 64 scripted GetErrorCount opened_on_failing))
    = rest ++ [{| function := "AbsScpiClient_GetErrorCount";
                  arguments := args |}].
Proof.
  split; [reflexivity|].
  destruct (perform_raises_only 64 scripted GetErrorCount opened_on_failing
              (ScpiClientError (literal "Timed out"))
              (snd (perform 64 scripted GetErrorCount opened_on_failing)))
    as [[H T]|(H & _)]; [lia | reflexivity | exact (conj H T) |].
  destruct H as [H|[msg H]]; discriminate H.
Defined.
